(** * videoplayer-gtk3: playback control and timeline thumbnails

    A shallow embedding of [videoplayer.c] (GTK3 + GStreamer video player).
    The program is a set of callbacks run by one GLib main loop over a
    single [CustomData] record.  GStreamer, GLib and GTK are the
    environment: every call into them is recorded as an [effect] in a trace,
    and every answer they give (query results, state-change returns, the
    pulled sample) is supplied by a [Backend] record delivered with the event
    that triggers the callback. *)

From Stdlib Require Import ZArith Lia String Ascii List Bool.
From stdpp Require Import base gmap strings list fin_maps.

Import ListNotations.
Local Open Scope string_scope.
Local Open Scope list_scope.
Local Open Scope Z_scope.

(** ** Machine integers *)

(** [gint64] values are kept as [Z]; arithmetic that can leave the range is
    wrapped to two's complement.  C leaves signed overflow undefined, so what
    is proved about such arithmetic is proved under a bound that keeps it in
    range. *)
Definition G_MAXINT64 : Z := 2 ^ 63 - 1.
Definition G_MININT64 : Z := - 2 ^ 63.
Definition G_MAXINT : Z := 2 ^ 31 - 1.

Definition wrap_gint64 (z : Z) : Z := (z + 2 ^ 63) mod 2 ^ 64 - 2 ^ 63.
Definition to_guint64 (z : Z) : Z := z mod 2 ^ 64.
Definition to_guint (z : Z) : Z := z mod 2 ^ 32.
Definition to_gint (z : Z) : Z := (z + 2 ^ 31) mod 2 ^ 32 - 2 ^ 31.

(** ** Clock times (gst/gstclock.h)

    The macros below are GStreamer's, which [time_to_string] expands:
    [GST_CLOCK_TIME_NONE] is [(GstClockTime) -1], [GST_SECOND] is 10^9,
    [GST_TIME_FORMAT] is ["u:%02u:%02u.%09u"] and [GST_TIME_ARGS (t)] yields
    hours, minutes, seconds and nanoseconds of [t], or 99, 99, 99, 999999999
    when [t] is not a valid clock time. *)
Definition GST_CLOCK_TIME_NONE : Z := 2 ^ 64 - 1.
Definition GST_SECOND : Z := 1000000000.
Definition TIME_STRING_LENGTH : Z := 13.
Definition THUMBNAILS_NUMBER : Z := 10.

(** The sentinel as it sits in a [gint64] field such as [data->duration]. *)
Definition gint64_NONE : Z := wrap_gint64 GST_CLOCK_TIME_NONE.

Definition GST_CLOCK_TIME_IS_VALID (t : Z) : bool :=
  negb (to_guint64 t =? GST_CLOCK_TIME_NONE).

Definition GST_TIME_ARGS (t : Z) : Z * Z * Z * Z :=
  let u := to_guint64 t in
  ( if GST_CLOCK_TIME_IS_VALID t then to_guint (u / (GST_SECOND * 60 * 60)) else 99,
    if GST_CLOCK_TIME_IS_VALID t then to_guint ((u / (GST_SECOND * 60)) mod 60) else 99,
    if GST_CLOCK_TIME_IS_VALID t then to_guint ((u / GST_SECOND) mod 60) else 99,
    if GST_CLOCK_TIME_IS_VALID t then to_guint (u mod GST_SECOND) else 999999999 ).

(** ** printf's [%0Nu] *)

Definition digit_char (d : Z) : ascii := ascii_of_nat (48 + Z.to_nat d).

Fixpoint utoa_aux (fuel : nat) (n : Z) (acc : string) : string :=
  match fuel with
  | O => acc
  | S fuel' =>
      let acc' := String (digit_char (n mod 10)) acc in
      if n / 10 =? 0 then acc' else utoa_aux fuel' (n / 10) acc'
  end.

(** Decimal digits of an unsigned value below 10^20 (a [guint] has ten). *)
Definition utoa (n : Z) : string := utoa_aux 20 n "".

Fixpoint zeros (k : nat) : string :=
  match k with
  | O => ""
  | S k' => String "0" (zeros k')
  end.

(** [%0<width>u]: zero-padded on the left up to [width], never truncated. *)
Definition printf_0u (width : nat) (n : Z) : string :=
  let s := utoa n in
  zeros (width - String.length s) +:+ s.

(** [g_strdup_printf ("%02" GST_TIME_FORMAT, GST_TIME_ARGS (time))] *)
Definition printf_time (time : Z) : string :=
  let '(h, m, s, ns) := GST_TIME_ARGS time in
  printf_0u 2 h +:+ ":" +:+ printf_0u 2 m +:+ ":" +:+ printf_0u 2 s +:+ "." +:+ printf_0u 9 ns.

Definition g_strndup (s : string) (n : Z) : string :=
  String.substring 0 (Z.to_nat n) s.

(** [time_to_string]: HH:mm:ss.SSS, or all zeros for the unknown time.  The
    function reads the same in both variants of the player. *)
Definition time_to_string (time : Z) : string :=
  if to_guint64 time =? GST_CLOCK_TIME_NONE then "00:00:00.000"
  else g_strndup (printf_time time) (TIME_STRING_LENGTH - 1).

(** ** GStreamer, GLib and GTK as seen by the program *)

Inductive GstState : Set :=
| GST_STATE_VOID_PENDING
| GST_STATE_NULL
| GST_STATE_READY
| GST_STATE_PAUSED
| GST_STATE_PLAYING.

Inductive GstStateChangeReturn : Set :=
| GST_STATE_CHANGE_FAILURE
| GST_STATE_CHANGE_SUCCESS
| GST_STATE_CHANGE_ASYNC
| GST_STATE_CHANGE_NO_PREROLL.

(** Pipeline handles.  [main] creates two playbins; any other object that
    posts on the bus (a child element of the playbin) is an [other_element]. *)
Inductive GstElement : Set :=
| the_playbin
| the_timelinebin
| other_element (n : nat).

#[global] Instance GstState_eq_dec : EqDecision GstState.
Proof. solve_decision. Defined.

#[global] Instance GstElement_eq_dec : EqDecision GstElement.
Proof. solve_decision. Defined.

Definition gst_element_state_get_name (s : GstState) : string :=
  match s with
  | GST_STATE_VOID_PENDING => "VOID_PENDING"
  | GST_STATE_NULL => "NULL"
  | GST_STATE_READY => "READY"
  | GST_STATE_PAUSED => "PAUSED"
  | GST_STATE_PLAYING => "PLAYING"
  end.

(** The negotiated format of a pulled sample: [gst_structure_get_int] may or
    may not find each dimension. *)
Record GstCaps : Set := mkCaps { caps_width : option Z; caps_height : option Z }.
Record GstSample : Set := mkSample { sample_caps : option GstCaps }.

Inductive widget_type : Set :=
| WIDGET_TYPE_DURATION
| WIDGET_TYPE_POSITION
| WIDGET_TYPE_SCALE
| WIDGET_TYPE_TIMELINE.

(** The two callbacks the program hands to [g_timeout_add]. *)
Inductive GSourceFunc : Set :=
| SRC_timer_src_func
| SRC_timeline_make_thumbnails.

#[global] Instance GSourceFunc_eq_dec : EqDecision GSourceFunc.
Proof. solve_decision. Defined.

(** Calls into the libraries, in program order.  [gtk_range_set_value r p d]
    stands for the value [(gdouble) p / (gdouble) d]; the quotient itself is
    floating point and is not computed here. *)
Inductive effect : Set :=
| g_print (msg : string)
| g_printerr (msg : string)
| gst_element_set_state (e : GstElement) (s : GstState)
| gst_element_query_duration (e : GstElement)
| gst_element_query_position (e : GstElement)
| gst_element_seek_simple (e : GstElement) (pos : Z)
| pull_preroll (e : GstElement)
| gdk_pixbuf_save (filename : string)
| gtk_label_set_text (label txt : string)
| gtk_range_set_value (range : string) (pos dur : Z)
| gtk_box_pack_image (box filename : string)
| g_object_set_uri (e : GstElement) (uri : string)
| g_timeout_add (interval : Z) (f : GSourceFunc) (id : Z)
| g_source_remove (id : Z)
| gst_object_unref (e : GstElement).

(** What the libraries answer during one callback. *)
Record Backend : Set := mkBackend {
  set_state_return : GstStateChangeReturn; (* of the timeline's PAUSED request *)
  query_duration_result : Z;               (* nanoseconds, or [gint64_NONE] *)
  query_position_result : Z;               (* nanoseconds, or [gint64_NONE] *)
  pulled_sample : option GstSample;        (* "pull-preroll" *)
  seek_result : bool
}.

(** The two ways the PAUSED request of [extract_thumbnails] can go. *)
Definition paused_refused (b : Backend) : Prop :=
  set_state_return b = GST_STATE_CHANGE_FAILURE \/
  set_state_return b = GST_STATE_CHANGE_NO_PREROLL.

Definition paused_accepted (b : Backend) : Prop :=
  set_state_return b = GST_STATE_CHANGE_SUCCESS \/
  set_state_return b = GST_STATE_CHANGE_ASYNC.

(** ** The program state *)

Record CustomData : Type := mkCustomData {
  playbin : GstElement;
  state : GstState;
  duration : Z;
  position : Z;
  timer_id : Z;
  timelinebin : GstElement
}.

(** [data] is [main]'s [CustomData]; [count] is the [static int count] of
    [timeline_make_thumbnails]; [sources] are the timeout sources attached to
    the main context, by id; [next_source_id] is the id GLib hands out next. *)
Record World : Type := mkWorld {
  data : CustomData;
  count : Z;
  sources : gmap Z GSourceFunc;
  next_source_id : Z;
  trace : list effect
}.

Definition emit (es : list effect) (w : World) : World :=
  mkWorld (data w) (count w) (sources w) (next_source_id w) (trace w ++ es).

Definition set_data (d : CustomData) (w : World) : World :=
  mkWorld d (count w) (sources w) (next_source_id w) (trace w).

Definition set_count (c : Z) (w : World) : World :=
  mkWorld (data w) c (sources w) (next_source_id w) (trace w).

Definition set_state (s : GstState) (w : World) : World :=
  let d := data w in
  set_data (mkCustomData (playbin d) s (duration d) (position d) (timer_id d) (timelinebin d)) w.

Definition set_duration (t : Z) (w : World) : World :=
  let d := data w in
  set_data (mkCustomData (playbin d) (state d) t (position d) (timer_id d) (timelinebin d)) w.

Definition set_position (t : Z) (w : World) : World :=
  let d := data w in
  set_data (mkCustomData (playbin d) (state d) (duration d) t (timer_id d) (timelinebin d)) w.

Definition set_timer_id (i : Z) (w : World) : World :=
  let d := data w in
  set_data (mkCustomData (playbin d) (state d) (duration d) (position d) i (timelinebin d)) w.

(** [g_timeout_add]: attach a source under a fresh id and return the id. *)
Definition timeout_add (interval : Z) (f : GSourceFunc) (w : World) : World * Z :=
  let id := next_source_id w in
  (mkWorld (data w) (count w) (<[id := f]> (sources w)) (id + 1)
           (trace w ++ [g_timeout_add interval f id]), id).

(** The main loop drops a source whose callback returned [G_SOURCE_REMOVE]. *)
Definition destroy_source (id : Z) (w : World) : World :=
  mkWorld (data w) (count w) (delete id (sources w)) (next_source_id w) (trace w).

(** [g_source_remove] *)
Definition source_remove (id : Z) (w : World) : World :=
  emit [g_source_remove id] (destroy_source id w).

(** ** The widget tree built by [create_ui]

    [update_widget] finds its target by walking the children of the main box
    and comparing widget names; a widget that was given no name answers with
    its class name. *)
Record GtkBox : Set := mkBox { box_name : string; box_children : list string }.

Definition main_box_children : list GtkBox :=
  [ mkBox "main_hbox" ["GtkDrawingArea"];
    mkBox "controls" ["GtkButton"; "GtkButton"; "GtkButton"; "GtkButton";
                      "position"; "scale"; "duration"];
    mkBox "timeline" [] ].

Definition nl : string := String (ascii_of_nat 10) "".

Definition widget_type_to_string (type : widget_type) : string :=
  match type with
  | WIDGET_TYPE_DURATION => "duration"
  | WIDGET_TYPE_POSITION => "position"
  | WIDGET_TYPE_SCALE => "scale"
  | WIDGET_TYPE_TIMELINE => "timeline"
  end.

Definition make_label_txt (type : widget_type) (duration : string) : string :=
  match type with
  | WIDGET_TYPE_DURATION => "Duration: " +:+ duration
  | WIDGET_TYPE_POSITION => "Position: " +:+ duration
  | _ => ""
  end.

Definition set_label_txt (label : string) (type : widget_type) (d : CustomData)
  : list effect :=
  match type with
  | WIDGET_TYPE_DURATION =>
      [gtk_label_set_text label (make_label_txt type (time_to_string (duration d)))]
  | WIDGET_TYPE_POSITION =>
      [gtk_label_set_text label (make_label_txt type (time_to_string (position d)))]
  | _ => []
  end.

Definition widget_add_image (box : string) : list effect :=
  [gtk_box_pack_image box "snapshot.png"].

(** The inner loop of [update_widget], over the children of a controls box. *)
Fixpoint update_controls (d : CustomData) (type : widget_type) (controls : list string)
  : list effect :=
  match controls with
  | [] => []
  | control :: rest =>
      if String.eqb control (widget_type_to_string type) then
        match type with
        | WIDGET_TYPE_SCALE => [gtk_range_set_value control (position d) (duration d)]
        | _ => set_label_txt control type d
        end
      else update_controls d type rest
  end.

(** The outer loop of [update_widget], over the children of the main box. *)
Fixpoint update_boxes (d : CustomData) (type : widget_type) (boxes : list GtkBox)
  : list effect :=
  match boxes with
  | [] => []
  | box :: rest =>
      if String.eqb (box_name box) "main_hbox" then update_boxes d type rest
      else if String.eqb (box_name box) "timeline" then
        match type with
        | WIDGET_TYPE_TIMELINE => widget_add_image (box_name box)
        | _ => update_boxes d type rest
        end
      else update_controls d type (box_children box) ++ update_boxes d type rest
  end.

Definition update_widget (type : widget_type) (w : World) : World :=
  emit (update_boxes (data w) type main_box_children) w.

(** ** Thumbnail extraction *)

(** [position = (step+1) * data->duration * 10 / 100], evaluated in [gint64]
    from left to right; the division truncates. *)
Definition thumbnail_position (step dur : Z) : Z :=
  Z.quot (wrap_gint64 (wrap_gint64 ((step + 1) * dur) * 10)) 100.

Definition extract_thumbnails (b : Backend) (step : Z) (w : World) : World :=
  let tl := timelinebin (data w) in
  let w := emit [gst_element_set_state tl GST_STATE_PAUSED] w in
  match set_state_return b with
  | GST_STATE_CHANGE_FAILURE => emit [g_print ("failed to play the file" +:+ nl)] w
  | GST_STATE_CHANGE_NO_PREROLL => emit [g_print ("live sources not supported yet" +:+ nl)] w
  | _ =>
      let w := set_duration (query_duration_result b)
                 (emit [gst_element_query_duration tl] w) in
      let pos := thumbnail_position step (duration (data w)) in
      let w := emit [gst_element_seek_simple tl pos; pull_preroll tl] w in
      match pulled_sample b with
      | Some sample =>
          match sample_caps sample with
          | None => emit [g_print ("could not get snapshot format" +:+ nl)] w
          | Some caps =>
              match caps_width caps, caps_height caps with
              | None, None => emit [g_print ("could not get snapshot dimension" +:+ nl)] w
              | _, _ => emit [gdk_pixbuf_save "snapshot.png"] w
              end
          end
      | None => emit [g_print ("could not make snapshot" +:+ nl)] w
      end
  end.

(** The stepping callback; the boolean is its return value ([TRUE] keeps the
    source, [G_SOURCE_REMOVE] drops it). *)
Definition timeline_make_thumbnails (b : Backend) (w : World) : World * bool :=
  if count w <? THUMBNAILS_NUMBER then
    let w := extract_thumbnails b (count w) w in
    let w := update_widget WIDGET_TYPE_TIMELINE w in
    (set_count (to_gint (count w + 1)) w, true)
  else
    let tl := timelinebin (data w) in
    (emit [gst_element_set_state tl GST_STATE_NULL; gst_object_unref tl] w, false).

(** ** Button callbacks *)

Definition play_cb (w : World) : World :=
  emit [gst_element_set_state (playbin (data w)) GST_STATE_PLAYING] w.

Definition pause_cb (w : World) : World :=
  emit [gst_element_set_state (playbin (data w)) GST_STATE_PAUSED] w.

Definition stop_cb (w : World) : World :=
  emit [gst_element_set_state (playbin (data w)) GST_STATE_READY] w.

(** [res] is the uri chosen in the dialog, or [None] when it was cancelled. *)
Definition open_cb (res : option string) (w : World) : World :=
  match res with
  | Some filename =>
      let w := emit [g_object_set_uri (timelinebin (data w)) filename] w in
      let w := fst (timeout_add 1000 SRC_timeline_make_thumbnails w) in
      emit [g_object_set_uri (playbin (data w)) filename;
            gst_element_set_state (playbin (data w)) GST_STATE_PLAYING] w
  | None => w
  end.

(** [target] is [value * data->duration] converted to [gint64]; the product
    is floating point and is taken as given. *)
Definition scale_cb (target : Z) (b : Backend) (w : World) : World :=
  let w := emit [gst_element_seek_simple (playbin (data w)) target] w in
  if seek_result b then w else emit [g_printerr ("Seek failed ! " +:+ nl)] w.

(** ** Bus callbacks *)

(** [element] and [message] are the name of the message's source and the
    text of the error; [debug_info] may be missing. *)
Definition error_cb (element message : string) (debug_info : option string) (w : World)
  : World :=
  emit [ g_printerr ("Error received from element " +:+ element +:+ ": " +:+ message +:+ nl);
         g_printerr ("Debugging information: " +:+
                     match debug_info with Some info => info | None => "none" end +:+ nl);
         gst_element_set_state (playbin (data w)) GST_STATE_READY ] w.

Definition eos_cb (w : World) : World :=
  let w := emit [g_print ("End-Of-Stream reached." +:+ nl);
                 gst_element_set_state (playbin (data w)) GST_STATE_READY] w in
  let w := set_position (duration (data w)) w in
  update_widget WIDGET_TYPE_POSITION w.

Definition timer_src_func (b : Backend) (w : World) : World * bool :=
  let w := set_position (query_position_result b)
             (emit [gst_element_query_position (playbin (data w))] w) in
  if negb (position (data w) =? duration (data w)) then
    let w := update_widget WIDGET_TYPE_POSITION w in
    let w := update_widget WIDGET_TYPE_SCALE w in
    (w, true)
  else (set_timer_id (-1) w, false).

Definition state_changed_cb (src : GstElement) (old_state new_state pending_state : GstState)
  (b : Backend) (w : World) : World :=
  if decide (src = playbin (data w)) then
    let w := set_state new_state w in
    let w := emit [g_print ("State set to " +:+ gst_element_state_get_name new_state +:+ nl)] w in
    match new_state with
    | GST_STATE_PLAYING =>
        let '(w, id) := timeout_add 20 SRC_timer_src_func w in
        let w := set_timer_id (to_gint id) w in
        let w := set_duration (query_duration_result b)
                   (emit [gst_element_query_duration (playbin (data w))] w) in
        update_widget WIDGET_TYPE_DURATION w
    | GST_STATE_PAUSED =>
        if 0 <? timer_id (data w) then
          set_timer_id (-1) (source_remove (timer_id (data w)) w)
        else w
    | _ => w
    end
  else w.

(** ** The main loop *)

(** What the loop can deliver: a click, a bus message, or a timeout that is
    due.  Every event comes with the answers the libraries give while its
    callback runs. *)
Inductive Event : Type :=
| EvPlay
| EvPause
| EvStop
| EvOpen (res : option string)
| EvScale (target : Z)
| EvError (element message : string) (debug_info : option string)
| EvEos
| EvStateChanged (src : GstElement) (old_state new_state pending_state : GstState)
| EvTimeout (id : Z).

Definition run_source (f : GSourceFunc) (b : Backend) (w : World) : World * bool :=
  match f with
  | SRC_timer_src_func => timer_src_func b w
  | SRC_timeline_make_thumbnails => timeline_make_thumbnails b w
  end.

(** A timeout is dispatched only while its source is attached. *)
Definition dispatch (w : World) (eb : Event * Backend) : World :=
  let '(ev, b) := eb in
  match ev with
  | EvPlay => play_cb w
  | EvPause => pause_cb w
  | EvStop => stop_cb w
  | EvOpen res => open_cb res w
  | EvScale target => scale_cb target b w
  | EvError element message debug_info => error_cb element message debug_info w
  | EvEos => eos_cb w
  | EvStateChanged src o n p => state_changed_cb src o n p b w
  | EvTimeout id =>
      match sources w !! id with
      | Some f =>
          let '(w', keep) := run_source f b w in
          if keep then w' else destroy_source id w'
      | None => w
      end
  end.

Definition run (w : World) (evs : list (Event * Backend)) : World :=
  fold_left dispatch evs w.

(** [main] up to [gtk_main]: the record is zeroed, duration and position are
    unknown, no timer is running, and [create_ui] has written both labels.
    Source ids are taken to start at 1; only their being positive and fresh
    matters below. *)
Definition main_data : CustomData :=
  mkCustomData the_playbin GST_STATE_VOID_PENDING gint64_NONE gint64_NONE (-1) the_timelinebin.

Definition main_init : World :=
  mkWorld main_data 0 ∅ 1
    (set_label_txt "position" WIDGET_TYPE_POSITION main_data ++
     set_label_txt "duration" WIDGET_TYPE_DURATION main_data).

(** ** The environment's side of the contract

    A pipeline announces its state changes one step at a time along
    NULL - READY - PAUSED - PLAYING, each announcement starting from the state
    announced before (a flushing seek re-announces PAUSED), and the ids GLib
    hands out fit the [gint] in which [timer_id] keeps them. *)
Definition playbin_current (d : CustomData) : GstState :=
  match state d with
  | GST_STATE_VOID_PENDING => GST_STATE_NULL
  | s => s
  end.

Definition state_step (a b : GstState) : bool :=
  match a, b with
  | GST_STATE_NULL, GST_STATE_READY
  | GST_STATE_READY, GST_STATE_NULL
  | GST_STATE_READY, GST_STATE_PAUSED
  | GST_STATE_PAUSED, GST_STATE_READY
  | GST_STATE_PAUSED, GST_STATE_PAUSED
  | GST_STATE_PAUSED, GST_STATE_PLAYING
  | GST_STATE_PLAYING, GST_STATE_PAUSED => true
  | _, _ => false
  end.

Definition lawful (w : World) (eb : Event * Backend) : bool :=
  (next_source_id w <=? G_MAXINT) &&
  match fst eb with
  | EvStateChanged src o n _ =>
      if decide (src = playbin (data w))
      then bool_decide (o = playbin_current (data w)) && state_step o n
      else true
  | _ => true
  end.

Fixpoint lawful_run (w : World) (evs : list (Event * Backend)) : bool :=
  match evs with
  | [] => true
  | eb :: rest => lawful w eb && lawful_run (dispatch w eb) rest
  end.

(** ** Reading a trace *)

Fixpoint count_eff (p : effect -> bool) (t : list effect) : nat :=
  match t with
  | [] => O
  | e :: rest => (if p e then 1 else 0)%nat + count_eff p rest
  end.

(** One extraction step: every call of [extract_thumbnails] opens with the
    PAUSED request on the timeline pipeline, and nothing else issues it. *)
Definition is_extraction_step (e : effect) : bool :=
  match e with
  | gst_element_set_state the_timelinebin GST_STATE_PAUSED => true
  | _ => false
  end.

(** A thumbnail shown to the user: an image packed into the timeline box. *)
Definition is_thumbnail_ready (e : effect) : bool :=
  match e with
  | gtk_box_pack_image box _ => String.eqb box "timeline"
  | _ => false
  end.

Definition is_position_update (e : effect) : bool :=
  match e with
  | gtk_label_set_text label _ => String.eqb label "position"
  | _ => false
  end.

Definition is_slider_update (e : effect) : bool :=
  match e with
  | gtk_range_set_value _ _ _ => true
  | _ => false
  end.

Definition is_position_query (e : effect) : bool :=
  match e with
  | gst_element_query_position _ => true
  | _ => false
  end.

Definition is_timeline_duration_query (e : effect) : bool :=
  match e with
  | gst_element_query_duration the_timelinebin => true
  | _ => false
  end.

Definition is_eos (eb : Event * Backend) : bool :=
  match fst eb with
  | EvEos => true
  | _ => false
  end.

(** A state-changed message of the program's own pipeline into PLAYING. *)
Definition enters_playing (eb : Event * Backend) : bool :=
  match fst eb with
  | EvStateChanged src _ GST_STATE_PLAYING _ => bool_decide (src = the_playbin)
  | _ => false
  end.

Definition poller_active (w : World) (id : Z) : Prop :=
  sources w !! id = Some SRC_timer_src_func.

Definition stepper_active (w : World) (id : Z) : Prop :=
  sources w !! id = Some SRC_timeline_make_thumbnails.

(** ** Scenarios

    Concrete answers and event sequences on which the statements below are
    evaluated. *)
Definition answers (r : GstStateChangeReturn) (dur pos : Z) (s : option GstSample)
  : Backend := mkBackend r dur pos s true.

Definition frame_160x90 : GstSample := mkSample (Some (mkCaps (Some 160) (Some 90))).

Definition one_minute : Z := 60 * GST_SECOND.

(** The timeline pipeline refuses PAUSED. *)
Definition b_failure : Backend := answers GST_STATE_CHANGE_FAILURE gint64_NONE gint64_NONE None.

(** The timeline pipeline prerolls a one-minute clip and delivers a frame. *)
Definition b_frame : Backend :=
  answers GST_STATE_CHANGE_SUCCESS one_minute 0 (Some frame_160x90).

(** The timeline pipeline prerolls but the sink has no frame to give. *)
Definition b_no_frame : Backend := answers GST_STATE_CHANGE_ASYNC one_minute 0 None.

(** The timeline pipeline cannot tell its duration yet. *)
Definition b_unknown_duration : Backend :=
  answers GST_STATE_CHANGE_ASYNC gint64_NONE 0 (Some frame_160x90).

(** Playback of a one-minute clip, sampled at [pos]. *)
Definition b_playing (pos : Z) : Backend := answers GST_STATE_CHANGE_SUCCESS one_minute pos None.

Definition ev_open : Event := EvOpen (Some "file:///clip.mp4").

Definition ev_state (o n : GstState) : Event := EvStateChanged the_playbin o n GST_STATE_VOID_PENDING.

(** Open a file and let the playbin come up to PLAYING: the stepping timer
    gets id 1, the position poller id 2. *)
Definition open_and_play : list (Event * Backend) :=
  [ (ev_open, b_playing 0);
    (ev_state GST_STATE_NULL GST_STATE_READY, b_playing 0);
    (ev_state GST_STATE_READY GST_STATE_PAUSED, b_playing 0);
    (ev_state GST_STATE_PAUSED GST_STATE_PLAYING, b_playing 0) ].

Definition playing : World := run main_init open_and_play.

(** Ten ticks of the stepping timer, none of which gets a frame. *)
Definition ten_empty_ticks : list (Event * Backend) :=
  repeat (EvTimeout 1, b_no_frame) 10.

(** ** Invariants of the main loop *)

(** The two pipeline handles are set once in [main] and never reassigned. *)
Definition handles_ok (w : World) : Prop :=
  playbin (data w) = the_playbin /\ timelinebin (data w) = the_timelinebin.

(** The static counter counts the extraction steps made so far, each of
    which has packed one image into the timeline. *)
Definition counted (w : World) : Prop :=
  handles_ok w /\
  0 <= count w <= THUMBNAILS_NUMBER /\
  count_eff is_extraction_step (trace w) = Z.to_nat (count w) /\
  count_eff is_thumbnail_ready (trace w) = Z.to_nat (count w).

(** Timers are attached under fresh positive ids, and a position poller is
    attached only while the recorded state is PLAYING, under the id kept in
    [timer_id]. *)
Definition poller_inv (w : World) : Prop :=
  handles_ok w /\
  0 < next_source_id w /\
  (forall id f, sources w !! id = Some f -> 0 < id < next_source_id w) /\
  (forall id, poller_active w id ->
     id = timer_id (data w) /\ state (data w) = GST_STATE_PLAYING).

Definition no_poller (w : World) : Prop := forall id, ~ poller_active w id.

Fixpoint eos_events (evs : list (Event * Backend)) : nat :=
  match evs with
  | [] => O
  | eb :: rest => (if is_eos eb then 1 else 0)%nat + eos_events rest
  end.

(** ** Auxiliary notions *)

(** The [k] low decimal digits of [n], most significant first, put before
    [acc]. *)
Fixpoint fixed_digits (k : nat) (n : Z) (acc : string) : string :=
  match k with
  | O => acc
  | S k' => fixed_digits k' (n / 10) (String (digit_char (n mod 10)) acc)
  end.

(** The pulled sample carries a format in which at least one of width and
    height can be read. *)
Definition usable_frame (b : Backend) : Prop :=
  exists (sample : GstSample) (caps : GstCaps),
    pulled_sample b = Some sample /\ sample_caps sample = Some caps /\
    (is_Some (caps_width caps) \/ is_Some (caps_height caps)).

(** A box whose children [update_widget] searches for a control. *)
Definition is_controls_box (box : GtkBox) : bool :=
  negb (String.eqb (box_name box) "main_hbox") && negb (String.eqb (box_name box) "timeline").

(** What a widget of the given type is updated with. *)
Definition widget_update (d : CustomData) (type : widget_type) : effect :=
  match type with
  | WIDGET_TYPE_DURATION =>
      gtk_label_set_text "duration" ("Duration: " +:+ time_to_string (duration d))
  | WIDGET_TYPE_POSITION =>
      gtk_label_set_text "position" ("Position: " +:+ time_to_string (position d))
  | WIDGET_TYPE_SCALE => gtk_range_set_value "scale" (position d) (duration d)
  | WIDGET_TYPE_TIMELINE => gtk_box_pack_image "timeline" "snapshot.png"
  end.

(** The state a message leaves on record: the new state if the playbin
    announces one, the one already recorded otherwise. *)
Definition announced (st : GstState) (eb : Event * Backend) : GstState :=
  match fst eb with
  | EvStateChanged src _ n _ => if decide (src = the_playbin) then n else st
  | _ => st
  end.

(** [timer_id] is -1 or names an attached position poller. *)
Definition timer_id_valid (w : World) : Prop :=
  timer_id (data w) = -1 \/ poller_active w (timer_id (data w)).

(** The stepping timers among the attached sources. *)
Definition steppers (m : gmap Z GSourceFunc) : gmap Z GSourceFunc :=
  filter (fun kv : Z * GSourceFunc => kv.2 = SRC_timeline_make_thumbnails) m.

Definition steppers_attached (w : World) : nat := size (steppers (sources w)).

Definition is_stepper_attach (e : effect) : bool :=
  match e with
  | g_timeout_add _ SRC_timeline_make_thumbnails _ => true
  | _ => false
  end.

Definition is_timeline_unref (e : effect) : bool :=
  match e with
  | gst_object_unref the_timelinebin => true
  | _ => false
  end.

(** Every stepping timer ever attached is still attached or has torn the
    timeline pipeline down. *)
Definition accounted (w : World) : Prop :=
  count_eff is_stepper_attach (trace w) =
  (count_eff is_timeline_unref (trace w) + steppers_attached w)%nat.

Definition tidy (w : World) : Prop :=
  poller_inv w /\ timer_id_valid w /\ accounted w.

(** Two files opened one after the other, the first job run to its end by
    timer 1, and both stepping timers fired once more. *)
Definition two_opens_to_the_end : list (Event * Backend) :=
  (ev_open, b_frame) :: (ev_open, b_frame) ::
  repeat (EvTimeout 1, b_frame) 11 ++ [(EvTimeout 2, b_frame)].

(** A main loop that has already handed out every id a [gint] can hold. *)
Definition ids_exhausted : World := mkWorld main_data 0 ∅ (G_MAXINT + 1) [].

(** ** The earlier variant of the player

    The second source file is the same program before position, slider and
    thumbnails were added: [CustomData] holds the pipeline, its state and the
    duration, and the only widget kept up to date is the duration label. *)
Module Basic.

Record CustomData : Type := mkCustomData {
  playbin : GstElement;
  state : GstState;
  duration : Z
}.

Inductive label_type : Set :=
| LABEL_TYPE_DURATION
| LABEL_TYPE_POSITION.

Definition label_type_to_string (type : label_type) : string :=
  match type with
  | LABEL_TYPE_DURATION => "duration"
  | LABEL_TYPE_POSITION => "position"
  end.

Definition make_label_txt (type : label_type) (duration : string) : string :=
  match type with
  | LABEL_TYPE_DURATION => "Duration: " +:+ duration
  | LABEL_TYPE_POSITION => "Position: " +:+ duration
  end.

(** The children of the main box as this variant's [create_ui] builds them. *)
Definition main_box_children : list GtkBox :=
  [ mkBox "main_hbox" ["GtkDrawingArea"];
    mkBox "controls" ["GtkButton"; "GtkButton"; "GtkButton"; "GtkButton"; "duration"] ].

(** The inner loop of [update_label]: the first control of the wanted name
    gets the text, which is made from [data->duration] for either type. *)
Fixpoint update_controls (d : CustomData) (type : label_type) (controls : list string)
  : list effect :=
  match controls with
  | [] => []
  | control :: rest =>
      if String.eqb control (label_type_to_string type) then
        [gtk_label_set_text control (make_label_txt type (time_to_string (duration d)))]
      else update_controls d type rest
  end.

(** The outer loop of [update_label]: only the first box named controls is
    searched. *)
Fixpoint update_boxes (d : CustomData) (type : label_type) (boxes : list GtkBox)
  : list effect :=
  match boxes with
  | [] => []
  | box :: rest =>
      if negb (String.eqb (box_name box) "controls") then update_boxes d type rest
      else update_controls d type (box_children box)
  end.

Definition update_label (d : CustomData) (type : label_type) : list effect :=
  update_boxes d type main_box_children.

Definition eos_cb (d : CustomData) : CustomData * list effect :=
  (d, [ g_print ("End-Of-Stream reached." +:+ nl);
        gst_element_set_state (playbin d) GST_STATE_READY ]).

Definition state_changed_cb (src : GstElement) (old_state new_state pending_state : GstState)
  (b : Backend) (d : CustomData) : CustomData * list effect :=
  if decide (src = playbin d) then
    let d := mkCustomData (playbin d) new_state (duration d) in
    let log := [g_print ("State set to " +:+ gst_element_state_get_name new_state +:+ nl)] in
    match new_state with
    | GST_STATE_PLAYING =>
        let d := mkCustomData (playbin d) (state d) (query_duration_result b) in
        (d, log ++ [gst_element_query_duration (playbin d)] ++
            update_label d LABEL_TYPE_DURATION)
    | _ => (d, log)
    end
  else (d, []).

End Basic.

(** What the earlier variant keeps of the later one's record. *)
Definition basic_view (d : CustomData) : Basic.CustomData :=
  Basic.mkCustomData (playbin d) (state d) (duration d).

(** The calls that only the later variant makes when the state changes. *)
Definition is_timer_call (e : effect) : bool :=
  match e with
  | g_timeout_add _ _ _ | g_source_remove _ => true
  | _ => false
  end.

Definition is_snapshot_save (e : effect) : bool :=
  match e with
  | gdk_pixbuf_save _ => true
  | _ => false
  end.

(** No more snapshots written than extraction steps made. *)
Definition saves_bounded (w : World) : Prop :=
  counted w /\
  (count_eff is_snapshot_save (trace w) <= count_eff is_extraction_step (trace w))%nat.

(** ** The contract without the old-state label

    [state_changed_cb] never reads the old state a message carries.  What
    matters of the contract is that each state the playbin announces is one
    step from the state on record (PAUSED may be announced again), and that
    the ids fit a [gint]; the label may be anything, as when a flushing seek
    during playback re-announces PAUSED. *)
Definition stepwise (w : World) (eb : Event * Backend) : bool :=
  (next_source_id w <=? G_MAXINT) &&
  match fst eb with
  | EvStateChanged src _ n _ =>
      if decide (src = playbin (data w))
      then state_step (playbin_current (data w)) n
      else true
  | _ => true
  end.

Fixpoint stepwise_run (w : World) (evs : list (Event * Backend)) : bool :=
  match evs with
  | [] => true
  | eb :: rest => stepwise w eb && stepwise_run (dispatch w eb) rest
  end.

(** The same message with the state on record as its old state. *)
Definition relabel (w : World) (eb : Event * Backend) : Event * Backend :=
  match fst eb with
  | EvStateChanged src o n p =>
      (EvStateChanged src
         (if decide (src = playbin (data w)) then playbin_current (data w) else o) n p,
       snd eb)
  | _ => eb
  end.

(** Playback, a tick, a flushing seek (PAUSED announced again under its own
    label, then PLAYING, which attaches poller 3) and a tick of poller 3. *)
Definition play_seek_play : list (Event * Backend) :=
  open_and_play ++
  [ (EvTimeout 2, b_playing GST_SECOND);
    (ev_state GST_STATE_PAUSED GST_STATE_PAUSED, b_playing GST_SECOND);
    (ev_state GST_STATE_PAUSED GST_STATE_PLAYING, b_playing GST_SECOND);
    (EvTimeout 3, b_playing (2 * GST_SECOND)) ].

(** Playback paused by the user and confirmed by the playbin. *)
Definition play_then_pause : list (Event * Backend) :=
  open_and_play ++
  [ (EvPause, b_playing GST_SECOND);
    (ev_state GST_STATE_PLAYING GST_STATE_PAUSED, b_playing GST_SECOND) ].

(** * Properties *)

(** ** Time strings *)

(** C5.  [time_to_string] gives "00:00:00.000" for the unknown-time sentinel
    and "01:02:05.000" for 3,725,000,000,000 ns (1 h 2 min 5 s). *)
Theorem time_to_string_examples :
  time_to_string gint64_NONE = "00:00:00.000" /\
  time_to_string 3725000000000 = "01:02:05.000".
Proof. split; vm_compute; reflexivity. Qed.

(** The full line before truncation carries nine fractional digits. *)
Lemma printf_time_example :
  printf_time 3725000000000 = "01:02:05.000000000".
Proof. vm_compute. reflexivity. Qed.

(** ** Arithmetic *)

Lemma wrap_gint64_small (z : Z) :
  G_MININT64 <= z <= G_MAXINT64 -> wrap_gint64 z = z.
Proof.
  unfold wrap_gint64, G_MININT64, G_MAXINT64. intros Hz.
  rewrite Z.mod_small by lia. lia.
Qed.

Lemma to_gint_small (z : Z) : - 2 ^ 31 <= z <= G_MAXINT -> to_gint z = z.
Proof.
  unfold to_gint, G_MAXINT. intros Hz.
  rewrite Z.mod_small by lia. lia.
Qed.

Lemma count_eff_app (p : effect -> bool) (t1 t2 : list effect) :
  count_eff p (t1 ++ t2) = (count_eff p t1 + count_eff p t2)%nat.
Proof.
  induction t1 as [| e t1 IH]; cbn; [ reflexivity | rewrite IH; lia ].
Qed.

Lemma thumbnail_position_exact (s D : Z) :
  0 < D -> 100 * D <= G_MAXINT64 -> 0 <= s <= 9 ->
  thumbnail_position s D = (s + 1) * D * 10 / 100.
Proof.
  intros HD Hmax Hs. unfold thumbnail_position.
  assert (Hp : 0 <= (s + 1) * D <= 10 * D) by nia.
  unfold G_MAXINT64 in Hmax.
  rewrite (wrap_gint64_small ((s + 1) * D)) by (unfold G_MININT64, G_MAXINT64; lia).
  rewrite wrap_gint64_small by (unfold G_MININT64, G_MAXINT64; lia).
  apply Z.quot_div_nonneg; lia.
Qed.

Lemma tenth_steps (k D : Z) :
  0 <= k -> 0 <= D -> k * D * 10 / 100 = k * D / 10.
Proof.
  intros Hk HD. replace 100 with (10 * 10) by reflexivity.
  rewrite Z.mul_comm with (n := k * D) (m := 10).
  rewrite Z.div_mul_cancel_l by lia. reflexivity.
Qed.

Lemma thumbnail_position_tenth (s D : Z) :
  0 < D -> 100 * D <= G_MAXINT64 -> 0 <= s <= 9 ->
  thumbnail_position s D = (s + 1) * D / 10.
Proof.
  intros HD Hmax Hs. rewrite thumbnail_position_exact by assumption.
  apply tenth_steps; lia.
Qed.

(** ** What one call of [extract_thumbnails] does *)

Lemma extract_thumbnails_refused (b : Backend) (step : Z) (w : World) :
  paused_refused b ->
  exists msg,
    extract_thumbnails b step w =
    emit [gst_element_set_state (timelinebin (data w)) GST_STATE_PAUSED; g_print msg] w.
Proof.
  intros [H | H]; unfold extract_thumbnails; rewrite H; eexists; unfold emit; cbn;
    rewrite <- app_assoc; reflexivity.
Qed.

Lemma extract_thumbnails_accepted (b : Backend) (step : Z) (w : World) :
  paused_accepted b ->
  exists tail,
    data (extract_thumbnails b step w) = data (set_duration (query_duration_result b) w) /\
    count (extract_thumbnails b step w) = count w /\
    sources (extract_thumbnails b step w) = sources w /\
    next_source_id (extract_thumbnails b step w) = next_source_id w /\
    trace (extract_thumbnails b step w) =
      trace w ++
      [ gst_element_set_state (timelinebin (data w)) GST_STATE_PAUSED;
        gst_element_query_duration (timelinebin (data w));
        gst_element_seek_simple (timelinebin (data w))
          (thumbnail_position step (query_duration_result b));
        pull_preroll (timelinebin (data w)); tail ] /\
    (pulled_sample b = None -> tail = g_print ("could not make snapshot" +:+ nl)) /\
    (tail = gdk_pixbuf_save "snapshot.png" \/ exists msg, tail = g_print msg).
Proof.
  intros Hacc. unfold extract_thumbnails.
  destruct Hacc as [H | H]; rewrite H;
    destruct (pulled_sample b) as [[[[[wd|] [ht|]]|]]|];
    eexists; cbn; rewrite <- !app_assoc; cbn;
    (split; [reflexivity|]); (split; [reflexivity|]); (split; [reflexivity|]);
    (split; [reflexivity|]); (split; [reflexivity|]);
    (split; [ intros Hnone; first [ discriminate Hnone | reflexivity ] | eauto ]).
Qed.

(** ** What [update_widget] reaches in the tree of [create_ui] *)

Lemma update_widget_timeline (w : World) :
  update_widget WIDGET_TYPE_TIMELINE w = emit [gtk_box_pack_image "timeline" "snapshot.png"] w.
Proof. reflexivity. Qed.

Lemma update_widget_position (w : World) :
  update_widget WIDGET_TYPE_POSITION w =
  emit [gtk_label_set_text "position" ("Position: " +:+ time_to_string (position (data w)))] w.
Proof. reflexivity. Qed.

Lemma update_widget_duration (w : World) :
  update_widget WIDGET_TYPE_DURATION w =
  emit [gtk_label_set_text "duration" ("Duration: " +:+ time_to_string (duration (data w)))] w.
Proof. reflexivity. Qed.

Lemma update_widget_scale (w : World) :
  update_widget WIDGET_TYPE_SCALE w =
  emit [gtk_range_set_value "scale" (position (data w)) (duration (data w))] w.
Proof. reflexivity. Qed.

(** ** One tick of the stepping timer *)

Lemma stepper_tick (w : World) (b : Backend) (id : Z) :
  stepper_active w id -> count w < THUMBNAILS_NUMBER ->
  dispatch w (EvTimeout id, b) =
  set_count (to_gint (count w + 1))
    (update_widget WIDGET_TYPE_TIMELINE (extract_thumbnails b (count w) w)).
Proof.
  unfold stepper_active. intros Hid Hc. cbn. rewrite Hid. cbn.
  unfold timeline_make_thumbnails.
  destruct (Z.ltb_spec (count w) THUMBNAILS_NUMBER) as [_ | Hge]; [ | lia ].
  assert (Hcount : forall st, count (extract_thumbnails b st w) = count w).
  { intros st. unfold extract_thumbnails.
    destruct (set_state_return b); try reflexivity;
      destruct (pulled_sample b) as [[[[[?|] [?|]]|]]|]; reflexivity. }
  cbn. rewrite Hcount. reflexivity.
Qed.

Lemma stepper_tick_done (w : World) (b : Backend) (id : Z) :
  stepper_active w id -> THUMBNAILS_NUMBER <= count w ->
  dispatch w (EvTimeout id, b) =
  destroy_source id
    (emit [gst_element_set_state (timelinebin (data w)) GST_STATE_NULL;
           gst_object_unref (timelinebin (data w))] w).
Proof.
  unfold stepper_active. intros Hid Hc. cbn. rewrite Hid. cbn.
  unfold timeline_make_thumbnails.
  destruct (Z.ltb_spec (count w) THUMBNAILS_NUMBER) as [Hlt | _]; [ lia | reflexivity ].
Qed.

(** C1 (amended).  For a known duration [D > 0] whose hundredfold still fits
    a [gint64], step [s] of 0..9 seeks to [(s+1) * D * 10 / 100], that is
    [(s+1) * D / 10].  The targets never decrease and increase strictly once
    [D] is at least 10 ns; steps 0..8 stay strictly below [D], and step 9
    seeks to [D] itself. *)
Theorem thumbnail_targets (D s : Z) (b : Backend) (w : World) :
  0 < D -> 100 * D <= G_MAXINT64 -> 0 <= s <= 9 ->
  paused_accepted b -> query_duration_result b = D ->
  In (gst_element_seek_simple (timelinebin (data w)) (thumbnail_position s D))
     (trace (extract_thumbnails b s w)) /\
  thumbnail_position s D = (s + 1) * D * 10 / 100 /\
  thumbnail_position s D = (s + 1) * D / 10 /\
  (s < 9 -> thumbnail_position s D <= thumbnail_position (s + 1) D) /\
  (s < 9 -> 10 <= D -> thumbnail_position s D < thumbnail_position (s + 1) D) /\
  (s < 9 -> thumbnail_position s D < D) /\
  thumbnail_position s D <= D /\
  thumbnail_position 9 D = D.
Proof.
  intros HD Hmax Hs Hacc Hq.
  split.
  { destruct (extract_thumbnails_accepted b s w Hacc) as (tail & _ & _ & _ & _ & Htr & _).
    rewrite Htr, Hq. apply in_or_app. right. cbn. auto. }
  split; [ apply thumbnail_position_exact; assumption | ].
  split; [ apply thumbnail_position_tenth; assumption | ].
  assert (Hlast : thumbnail_position 9 D = D).
  { rewrite thumbnail_position_tenth by lia.
    replace ((9 + 1) * D) with (D * 10) by lia. apply Z.div_mul. lia. }
  repeat split.
  - intros Hlt. rewrite !thumbnail_position_tenth by lia.
    apply Z.div_le_mono; nia.
  - intros Hlt HD10. rewrite !thumbnail_position_tenth by lia.
    replace ((s + 1 + 1) * D) with ((s + 1) * D + D) by lia.
    assert (H1 : ((s + 1) * D + 1 * 10) / 10 <= ((s + 1) * D + D) / 10)
      by (apply Z.div_le_mono; lia).
    rewrite Z.div_add in H1 by lia. lia.
  - intros Hlt. rewrite thumbnail_position_tenth by lia.
    apply Z.div_lt_upper_bound; nia.
  - rewrite thumbnail_position_tenth by lia.
    apply Z.div_le_upper_bound; nia.
  - exact Hlast.
Qed.

Lemma thumbnail_targets_witness :
  In (gst_element_seek_simple the_timelinebin (thumbnail_position 3 one_minute))
     (trace (extract_thumbnails b_frame 3 main_init)) /\
  thumbnail_position 3 one_minute = 24 * GST_SECOND /\
  thumbnail_position 3 one_minute < thumbnail_position 4 one_minute /\
  thumbnail_position 9 one_minute = one_minute.
Proof.
  assert (H : 0 < one_minute /\ 100 * one_minute <= G_MAXINT64) by (vm_compute; split; congruence).
  destruct H as [H1 H2].
  destruct (thumbnail_targets one_minute 3 b_frame main_init H1 H2)
    as (Hin & Hex & _ & _ & Hlt & _ & _ & Hlast).
  - lia.
  - left; reflexivity.
  - reflexivity.
  - split; [ exact Hin | ].
    split; [ rewrite Hex; reflexivity | ].
    split; [ apply Hlt; [ lia | vm_compute; congruence ] | exact Hlast ].
Defined.

(** C1, as stated, fails on a one-minute clip: the tenth target is the
    duration itself, not a time before it. *)
Lemma thumbnail_last_target_is_duration :
  ~ (forall D s : Z, 0 < D -> 0 <= s <= 9 ->
       thumbnail_position s D = (s + 1) * D * 10 / 100 /\
       (s < 9 -> thumbnail_position s D < thumbnail_position (s + 1) D) /\
       thumbnail_position s D < D).
Proof.
  intros H.
  destruct (H one_minute 9) as (_ & _ & Hlt); [ reflexivity | lia | ].
  vm_compute in Hlt. discriminate Hlt.
Qed.

(** Two more inputs on which C1 as stated fails: a 5 ns clip repeats a target,
    and past [G_MAXINT64 / 100] the product leaves the range of [gint64]
    (undefined in C; here it wraps). *)
Lemma thumbnail_targets_repeat_on_short_clip :
  thumbnail_position 1 5 = 1 /\ thumbnail_position 2 5 = 1.
Proof. split; reflexivity. Qed.

Lemma thumbnail_position_wraps :
  0 < 2 ^ 62 <= G_MAXINT64 /\ thumbnail_position 0 (2 ^ 62) < 0.
Proof. vm_compute. repeat split; congruence. Qed.

(** C2 (amended).  When the timeline pipeline refuses PAUSED (failure or
    no-preroll) at some step, only that step's extraction is skipped: nothing
    is queried, sought or pulled and [CustomData] is left as it was, but the
    timeline still gets its image, the counter still advances and the stepping
    timer stays attached, so the next tick asks for PAUSED again. *)
Theorem paused_refusal_skips_one_step (w : World) (b b' : Backend) (id : Z) :
  stepper_active w id -> 0 <= count w < THUMBNAILS_NUMBER ->
  paused_refused b ->
  let w' := dispatch w (EvTimeout id, b) in
  data w' = data w /\
  count w' = count w + 1 /\
  stepper_active w' id /\
  (exists msg,
     trace w' = trace w ++
       [ gst_element_set_state (timelinebin (data w)) GST_STATE_PAUSED;
         g_print msg;
         gtk_box_pack_image "timeline" "snapshot.png" ]) /\
  (count w + 1 < THUMBNAILS_NUMBER ->
   exists rest,
     trace (dispatch w' (EvTimeout id, b')) =
     trace w' ++ gst_element_set_state (timelinebin (data w)) GST_STATE_PAUSED :: rest).
Proof.
  intros Hid Hc Href w'. unfold THUMBNAILS_NUMBER in Hc.
  assert (Hw' : w' = set_count (count w + 1)
                       (emit [gtk_box_pack_image "timeline" "snapshot.png"]
                             (extract_thumbnails b (count w) w))).
  { unfold w'. rewrite stepper_tick by (unfold THUMBNAILS_NUMBER; auto with zarith).
    rewrite update_widget_timeline, to_gint_small by (unfold G_MAXINT; lia). reflexivity. }
  destruct (extract_thumbnails_refused b (count w) w Href) as (msg & Hex).
  rewrite Hex in Hw'. clearbody w'. subst w'. cbn.
  split; [ reflexivity | ]. split; [ reflexivity | ]. split; [ exact Hid | ].
  split.
  - exists msg. rewrite <- app_assoc. reflexivity.
  - intros Hnext. unfold stepper_active in Hid. rewrite Hid. cbn.
    unfold timeline_make_thumbnails. cbn.
    destruct (Z.ltb_spec (count w + 1) THUMBNAILS_NUMBER) as [_ | Hge]; [ | lia ].
    cbn. unfold extract_thumbnails. cbn.
    destruct (set_state_return b'); cbn;
      try (eexists; rewrite <- !app_assoc; cbn; reflexivity);
      destruct (pulled_sample b') as [[[[[?|] [?|]]|]]|]; cbn;
      eexists; rewrite <- !app_assoc; cbn; reflexivity.
Qed.

Lemma paused_refusal_skips_one_step_witness :
  let w := run main_init [(ev_open, b_frame)] in
  let w' := dispatch w (EvTimeout 1, b_failure) in
  stepper_active w 1 /\ paused_refused b_failure /\
  data w' = data w /\ count w' = 1 /\ stepper_active w' 1.
Proof.
  intros w w'.
  assert (Hid : stepper_active w 1) by reflexivity.
  assert (Href : paused_refused b_failure) by (left; reflexivity).
  destruct (paused_refusal_skips_one_step w b_failure b_frame 1 Hid) as (Hd & Hc & Hs & _);
    [ vm_compute; split; congruence | exact Href | ].
  repeat split; assumption.
Defined.

(** C2, as stated, fails: after the PAUSED request failed at step 0 the job
    goes on, and the next tick extracts step 1 (request, query, seek to the
    second tenth, pull, save). *)
Lemma paused_failure_does_not_abort_job :
  let w0 := run main_init [(ev_open, b_frame)] in
  let w1 := dispatch w0 (EvTimeout 1, b_failure) in
  let w2 := dispatch w1 (EvTimeout 1, b_frame) in
  set_state_return b_failure = GST_STATE_CHANGE_FAILURE /\
  count_eff is_extraction_step (trace w1) = 1%nat /\
  stepper_active w1 1 /\
  count_eff is_extraction_step (trace w2) = 2%nat /\
  In (gst_element_seek_simple the_timelinebin (12 * GST_SECOND)) (trace w2) /\
  In (gdk_pixbuf_save "snapshot.png") (trace w2).
Proof.
  cbv zeta. split; [ reflexivity | ]. split; [ vm_compute; reflexivity | ].
  split; [ vm_compute; reflexivity | ]. split; [ vm_compute; reflexivity | ].
  split; vm_compute; tauto.
Qed.

(** ** Runs *)

Lemma run_cons (w : World) (eb : Event * Backend) (evs : list (Event * Backend)) :
  run w (eb :: evs) = run (dispatch w eb) evs.
Proof. reflexivity. Qed.

(** An invariant of [dispatch] that holds at the start holds after any run. *)
Lemma run_invariant (P : World -> Prop) :
  (forall w eb, P w -> P (dispatch w eb)) ->
  forall evs w, P w -> P (run w evs).
Proof.
  intros Hstep evs. induction evs as [| eb evs IH]; intros w Hw; cbn.
  - exact Hw.
  - apply IH, Hstep, Hw.
Qed.

Ltac break_world w :=
  destruct w as [[?pb ?st ?du ?po ?ti ?tl] ?c ?src ?nx ?tr]; cbn in *.

Ltac count_trace :=
  repeat rewrite count_eff_app; cbn; repeat split; try reflexivity; try lia.

Lemma counted_dispatch (w : World) (eb : Event * Backend) :
  counted w -> counted (dispatch w eb).
Proof.
  destruct eb as [ev b]. unfold counted, handles_ok.
  intros ((Hpb & Htl) & Hc & Hsteps & Hready).
  break_world w. subst pb tl. unfold THUMBNAILS_NUMBER in *.
  destruct ev; cbn.
  - count_trace.
  - count_trace.
  - count_trace.
  - destruct res; cbn; count_trace.
  - unfold scale_cb. cbn. destruct (seek_result b); cbn; count_trace.
  - count_trace.
  - count_trace.
  - unfold state_changed_cb. cbn.
    destruct (decide (src0 = the_playbin)); cbn; [ | count_trace ].
    destruct new_state; cbn; try (destruct (0 <? ti); cbn); count_trace.
  - destruct (src !! id) as [[|]|]; cbn; [ | | count_trace ].
    + unfold timer_src_func. cbn.
      destruct (negb (query_position_result b =? du)); cbn; count_trace.
    + unfold timeline_make_thumbnails, THUMBNAILS_NUMBER. cbn.
      destruct (Z.ltb_spec c 10) as [Hlt | Hge]; cbn.
      * unfold extract_thumbnails. cbn.
        destruct (set_state_return b); cbn;
          try (rewrite to_gint_small by (unfold G_MAXINT; lia); count_trace; fail);
          destruct (pulled_sample b) as [[[[[?|] [?|]]|]]|]; cbn;
          rewrite to_gint_small by (unfold G_MAXINT; lia); count_trace.
      * count_trace.
Qed.

Lemma counted_main_init : counted main_init.
Proof. unfold counted, handles_ok, THUMBNAILS_NUMBER. cbn. repeat split; lia. Qed.

Lemma counted_run (evs : list (Event * Backend)) : counted (run main_init evs).
Proof. apply (run_invariant counted counted_dispatch), counted_main_init. Qed.

(** C3 (amended).  A step whose pull yields no frame logs "could not make
    snapshot" and saves nothing, but the timeline is notified all the same:
    every step packs one image, so the notifications of any run equal its
    extraction steps and a complete job has shown ten images whatever the
    pulls returned. *)
Theorem empty_pull_still_notifies (w : World) (b : Backend) (id : Z) :
  stepper_active w id -> 0 <= count w < THUMBNAILS_NUMBER ->
  paused_accepted b -> pulled_sample b = None ->
  let w' := dispatch w (EvTimeout id, b) in
  trace w' = trace w ++
    [ gst_element_set_state (timelinebin (data w)) GST_STATE_PAUSED;
      gst_element_query_duration (timelinebin (data w));
      gst_element_seek_simple (timelinebin (data w))
        (thumbnail_position (count w) (query_duration_result b));
      pull_preroll (timelinebin (data w));
      g_print ("could not make snapshot" +:+ nl);
      gtk_box_pack_image "timeline" "snapshot.png" ] /\
  count_eff is_thumbnail_ready (trace w') = S (count_eff is_thumbnail_ready (trace w)) /\
  (forall evs : list (Event * Backend),
     let wf := run main_init evs in
     count_eff is_thumbnail_ready (trace wf) = count_eff is_extraction_step (trace wf) /\
     (count wf = THUMBNAILS_NUMBER -> count_eff is_thumbnail_ready (trace wf) = 10%nat)).
Proof.
  intros Hid Hc Hacc Hnone w'.
  assert (Hw' : trace w' = trace (extract_thumbnails b (count w) w) ++
                           [gtk_box_pack_image "timeline" "snapshot.png"]).
  { unfold w'. rewrite stepper_tick by (auto; lia). reflexivity. }
  clearbody w'.
  destruct (extract_thumbnails_accepted b (count w) w Hacc)
    as (tail & _ & _ & _ & _ & Htr & Htail & _).
  rewrite Htr, (Htail Hnone), <- app_assoc in Hw'. cbn [app] in Hw'.
  split; [ exact Hw' | ].
  split; [ rewrite Hw', count_eff_app; cbn; lia | ].
  intros evs wf. destruct (counted_run evs) as (_ & _ & Hsteps & Hready).
  fold wf in Hsteps, Hready. split.
  - rewrite Hsteps, Hready. reflexivity.
  - intros Hdone. rewrite Hready, Hdone. reflexivity.
Qed.

Lemma empty_pull_still_notifies_witness :
  let w := run main_init [(ev_open, b_frame)] in
  let w' := dispatch w (EvTimeout 1, b_no_frame) in
  stepper_active w 1 /\ pulled_sample b_no_frame = None /\
  count_eff is_thumbnail_ready (trace w) = 0%nat /\
  count_eff is_thumbnail_ready (trace w') = 1%nat.
Proof.
  intros w w'.
  assert (Hid : stepper_active w 1) by reflexivity.
  assert (Hacc : paused_accepted b_no_frame) by (right; reflexivity).
  destruct (empty_pull_still_notifies w b_no_frame 1 Hid) as (_ & Hn & _);
    [ vm_compute; split; congruence | exact Hacc | reflexivity | ].
  split; [ exact Hid | ]. split; [ reflexivity | ]. split; [ reflexivity | ].
  exact Hn.
Defined.

(** C3, as stated, fails: a step whose pull returns nothing still packs an
    image into the timeline, and a job in which all ten pulls fail ends with
    ten images shown and none saved. *)
Lemma empty_pulls_still_fill_timeline :
  let w0 := run main_init [(ev_open, b_frame)] in
  let w1 := dispatch w0 (EvTimeout 1, b_no_frame) in
  let w10 := run w0 ten_empty_ticks in
  pulled_sample b_no_frame = None /\
  count_eff is_thumbnail_ready (trace w0) = 0%nat /\
  count_eff is_thumbnail_ready (trace w1) = 1%nat /\
  count w10 = 10 /\
  count_eff is_thumbnail_ready (trace w10) = 10%nat /\
  ~ In (gdk_pixbuf_save "snapshot.png") (trace w10).
Proof.
  cbv zeta. repeat split; try (vm_compute; reflexivity).
  vm_compute. intuition discriminate.
Qed.

(** C4 (amended).  Every step whose PAUSED request is accepted, the first and
    the later ones alike, queries the duration from the timeline pipeline and
    writes the answer into [data->duration], the one duration field of the
    program, which playback reads too; state, position and timer id are left
    alone. *)
Theorem every_step_queries_shared_duration (w : World) (b : Backend) (id : Z) :
  stepper_active w id -> 0 <= count w < THUMBNAILS_NUMBER -> paused_accepted b ->
  let w' := dispatch w (EvTimeout id, b) in
  duration (data w') = query_duration_result b /\
  state (data w') = state (data w) /\
  position (data w') = position (data w) /\
  timer_id (data w') = timer_id (data w) /\
  exists tail,
    trace w' = trace w ++
      [ gst_element_set_state (timelinebin (data w)) GST_STATE_PAUSED;
        gst_element_query_duration (timelinebin (data w));
        gst_element_seek_simple (timelinebin (data w))
          (thumbnail_position (count w) (query_duration_result b));
        pull_preroll (timelinebin (data w));
        tail;
        gtk_box_pack_image "timeline" "snapshot.png" ].
Proof.
  intros Hid Hc Hacc w'.
  assert (Hw' : w' = set_count (to_gint (count w + 1))
                       (emit [gtk_box_pack_image "timeline" "snapshot.png"]
                             (extract_thumbnails b (count w) w))).
  { unfold w'. rewrite stepper_tick by (auto; lia). reflexivity. }
  clearbody w'. subst w'.
  destruct (extract_thumbnails_accepted b (count w) w Hacc)
    as (tail & Hdata & _ & _ & _ & Htr & _).
  cbn. rewrite Hdata, Htr. cbn.
  repeat (split; [ reflexivity | ]).
  exists tail. rewrite <- app_assoc. reflexivity.
Qed.

Lemma every_step_queries_shared_duration_witness :
  let w := dispatch playing (EvTimeout 1, b_frame) in
  let w' := dispatch w (EvTimeout 1, b_unknown_duration) in
  stepper_active w 1 /\ count w = 1 /\ paused_accepted b_unknown_duration /\
  duration (data w') = gint64_NONE.
Proof.
  intros w w'.
  assert (Hid : stepper_active w 1) by reflexivity.
  assert (Hacc : paused_accepted b_unknown_duration) by (right; reflexivity).
  destruct (every_step_queries_shared_duration w b_unknown_duration 1 Hid) as (Hd & _);
    [ vm_compute; split; congruence | exact Hacc | ].
  split; [ exact Hid | ]. split; [ reflexivity | ]. split; [ exact Hacc | ].
  exact Hd.
Defined.

(** C4, as stated, fails: while a one-minute clip plays, the second step of
    the job queries the timeline pipeline again and, the answer being
    "unknown", leaves the playback session without its duration. *)
Lemma thumbnail_step_overwrites_duration :
  let w1 := dispatch playing (EvTimeout 1, b_frame) in
  let w2 := dispatch w1 (EvTimeout 1, b_unknown_duration) in
  state (data playing) = GST_STATE_PLAYING /\
  duration (data playing) = one_minute /\
  count w1 = 1 /\
  duration (data w1) = one_minute /\
  duration (data w2) = gint64_NONE /\
  duration (data w2) <> duration (data w1) /\
  count_eff is_timeline_duration_query (trace w2) = 2%nat.
Proof.
  cbv zeta. repeat split; try (vm_compute; reflexivity).
  vm_compute. discriminate.
Qed.

(** ** The position poller *)

(** C6.  A tick of the position poller queries the position; when the answer
    is below the duration it updates the position label and the slider and
    stays attached, and when the answer equals the duration it detaches
    without any update. *)
Theorem poller_tick (w : World) (b : Backend) (id : Z) :
  poller_active w id ->
  let w' := dispatch w (EvTimeout id, b) in
  let q := query_position_result b in
  position (data w') = q /\
  (q < duration (data w) ->
   poller_active w' id /\
   trace w' = trace w ++
     [ gst_element_query_position (playbin (data w));
       gtk_label_set_text "position" ("Position: " +:+ time_to_string q);
       gtk_range_set_value "scale" q (duration (data w)) ]) /\
  (q = duration (data w) ->
   sources w' !! id = None /\
   trace w' = trace w ++ [gst_element_query_position (playbin (data w))]).
Proof.
  intros Hid w' q. subst w' q. unfold poller_active in *.
  cbn. rewrite Hid. cbn. unfold timer_src_func. cbn.
  destruct (Z.eqb_spec (query_position_result b) (duration (data w))) as [Heq | Hne]; cbn.
  - split; [ reflexivity | ]. split; [ lia | ].
    intros _. split; [ apply lookup_delete_eq | reflexivity ].
  - split; [ reflexivity | ]. split; [ | contradiction ].
    intros _. split; [ exact Hid | ].
    rewrite <- !app_assoc. reflexivity.
Qed.

Lemma poller_tick_witness :
  poller_active playing 2 /\
  (let w' := dispatch playing (EvTimeout 2, b_playing (30 * GST_SECOND)) in
   poller_active w' 2 /\
   In (gtk_label_set_text "position" "Position: 00:00:30.000") (trace w') /\
   In (gtk_range_set_value "scale" (30 * GST_SECOND) one_minute) (trace w')) /\
  (let w' := dispatch playing (EvTimeout 2, b_playing one_minute) in
   sources w' !! 2 = None /\
   trace w' = trace playing ++ [gst_element_query_position the_playbin]).
Proof.
  assert (Hid : poller_active playing 2) by reflexivity.
  split; [ exact Hid | ]. split.
  - destruct (poller_tick playing (b_playing (30 * GST_SECOND)) 2 Hid) as (_ & Hlt & _).
    destruct Hlt as (Hact & Htr); [ vm_compute; reflexivity | ].
    cbv zeta. split; [ exact Hact | ]. rewrite Htr.
    split; apply in_or_app; right; vm_compute; tauto.
  - destruct (poller_tick playing (b_playing one_minute) 2 Hid) as (_ & _ & Heq).
    apply Heq. reflexivity.
Defined.

(** C7.  On end of stream the program asks the playbin for READY, sets the
    position to the duration and writes the position label once, whatever
    timers are attached at that moment. *)
Theorem eos_forces_position (w : World) (b : Backend) :
  let w' := dispatch w (EvEos, b) in
  position (data w') = duration (data w) /\
  duration (data w') = duration (data w) /\
  sources w' = sources w /\
  trace w' = trace w ++
    [ g_print ("End-Of-Stream reached." +:+ nl);
      gst_element_set_state (playbin (data w)) GST_STATE_READY;
      gtk_label_set_text "position"
        ("Position: " +:+ time_to_string (duration (data w))) ] /\
  count_eff is_position_update (trace w') = S (count_eff is_position_update (trace w)).
Proof.
  cbn. repeat (split; [ reflexivity | ]).
  split; [ rewrite <- app_assoc; reflexivity | ].
  rewrite !count_eff_app. cbn. lia.
Qed.

(** ** The thumbnail counter over a whole run *)

Lemma count_grows (c0 : Z) (w : World) (eb : Event * Backend) :
  counted w /\ c0 <= count w ->
  counted (dispatch w eb) /\ c0 <= count (dispatch w eb).
Proof.
  intros [Hcnt Hle]. split; [ apply counted_dispatch, Hcnt | ].
  destruct Hcnt as (_ & Hc & _). destruct eb as [ev b].
  break_world w. unfold THUMBNAILS_NUMBER in *.
  destruct ev; cbn; try assumption.
  - destruct res; cbn; assumption.
  - unfold scale_cb. cbn. destruct (seek_result b); cbn; assumption.
  - unfold state_changed_cb. cbn.
    destruct (decide (src0 = pb)); cbn; [ | assumption ].
    destruct new_state; cbn; try (destruct (0 <? ti); cbn); assumption.
  - destruct (src !! id) as [[|]|]; cbn; [ | | assumption ].
    + unfold timer_src_func. cbn.
      destruct (negb (query_position_result b =? du)); cbn; assumption.
    + unfold timeline_make_thumbnails, THUMBNAILS_NUMBER. cbn.
      destruct (Z.ltb_spec c 10) as [Hlt | Hge]; cbn; [ | assumption ].
      unfold extract_thumbnails. cbn.
      destruct (set_state_return b); cbn;
        try (rewrite to_gint_small by (unfold G_MAXINT; lia); lia);
        destruct (pulled_sample b) as [[[[[?|] [?|]]|]]|]; cbn;
        rewrite to_gint_small by (unfold G_MAXINT; lia); lia.
Qed.

(** C10.  Over the whole life of the process, whatever is opened and
    whenever, at most ten extraction steps are made: the static counter equals
    the number of steps made, opening a file attaches a new stepping timer but
    leaves the counter where it is, each tick extracts at the counter's index,
    and once the counter has reached ten no later event extracts anything. *)
Theorem at_most_ten_extraction_steps (evs : list (Event * Backend)) :
  let w := run main_init evs in
  (count_eff is_extraction_step (trace w) <= 10)%nat /\
  count_eff is_extraction_step (trace w) = Z.to_nat (count w) /\
  (forall (uri : string) (b : Backend),
     let w' := dispatch w (EvOpen (Some uri), b) in
     count w' = count w /\ stepper_active w' (next_source_id w)) /\
  (forall (id : Z) (b : Backend),
     stepper_active w id -> count w < THUMBNAILS_NUMBER ->
     dispatch w (EvTimeout id, b) =
     set_count (count w + 1)
       (update_widget WIDGET_TYPE_TIMELINE (extract_thumbnails b (count w) w))) /\
  (forall evs' : list (Event * Backend),
     count w = THUMBNAILS_NUMBER ->
     count_eff is_extraction_step (trace (run w evs')) =
     count_eff is_extraction_step (trace w)).
Proof.
  intros w. destruct (counted_run evs) as (Hh & Hc & Hsteps & _). fold w in Hh, Hc, Hsteps.
  unfold THUMBNAILS_NUMBER in *.
  split; [ lia | ]. split; [ exact Hsteps | ]. split; [ | split ].
  - intros uri b. cbn. split; [ reflexivity | ].
    unfold stepper_active. cbn. apply lookup_insert_eq.
  - intros id b Hid Hlt. rewrite stepper_tick by (unfold THUMBNAILS_NUMBER; auto).
    rewrite to_gint_small by (unfold G_MAXINT; lia). reflexivity.
  - intros evs' Hdone.
    assert (Hrun : counted (run w evs') /\ 10 <= count (run w evs')).
    { apply (run_invariant (fun x => counted x /\ 10 <= count x) (count_grows 10)).
      split; [ apply counted_run | lia ]. }
    destruct Hrun as ((_ & Hc' & Hsteps' & _) & Hge).
    unfold THUMBNAILS_NUMBER in Hc'. rewrite Hsteps', Hsteps. f_equal. lia.
Qed.

Lemma at_most_ten_extraction_steps_witness :
  let job := (ev_open, b_frame) :: ten_empty_ticks in
  let w := run main_init job in
  let reopened := run w ((ev_open, b_frame) :: repeat (EvTimeout 2, b_frame) 3) in
  count w = THUMBNAILS_NUMBER /\
  count_eff is_extraction_step (trace w) = 10%nat /\
  count_eff is_extraction_step (trace reopened) = 10%nat.
Proof.
  intros job w reopened.
  destruct (at_most_ten_extraction_steps job) as (_ & Hsteps & _ & _ & Hdone).
  fold w in Hsteps, Hdone.
  assert (Hc : count w = THUMBNAILS_NUMBER) by (vm_compute; reflexivity).
  split; [ exact Hc | ]. split; [ rewrite Hsteps, Hc; reflexivity | ].
  unfold reopened. rewrite (Hdone _ Hc), Hsteps, Hc. reflexivity.
Defined.

(** ** The poller over a whole run *)

Lemma state_step_from_playing (n : GstState) :
  state_step GST_STATE_PLAYING n = true -> n = GST_STATE_PAUSED.
Proof. destruct n; cbn; congruence. Qed.

Lemma poller_inv_main_init : poller_inv main_init.
Proof.
  unfold poller_inv, handles_ok, poller_active. cbn.
  split; [ split; reflexivity | ]. split; [ lia | ].
  split; [ intros i f Hi | intros i Hi ]; rewrite lookup_empty in Hi; discriminate Hi.
Qed.

Ltac inv_split i f Hi :=
  split; [ split; reflexivity
         | split; [ try lia | split; [ intros i f Hi | intros i Hi ] ] ].

Lemma poller_inv_dispatch (w : World) (eb : Event * Backend) :
  poller_inv w -> lawful w eb = true -> poller_inv (dispatch w eb).
Proof.
  destruct eb as [ev b]. unfold poller_inv, handles_ok, poller_active, lawful.
  intros ((Hpb & Htl) & Hnx & Hfresh & Hpoll) Hlaw.
  apply andb_true_iff in Hlaw. destruct Hlaw as [Hfit Hlaw].
  apply Z.leb_le in Hfit.
  break_world w. subst pb tl.
  assert (Hkeep : forall i f, src !! i = Some f -> 0 < i < nx + 1)
    by (intros i f Hi; specialize (Hfresh i f Hi); lia).
  pose proof (conj (conj (eq_refl the_playbin) (eq_refl the_timelinebin))
                   (conj Hnx (conj Hfresh Hpoll))) as Hsame.
  destruct ev as [ | | | res | target | msg | | esrc o n p | tid ]; cbn.
  - exact Hsame.
  - exact Hsame.
  - exact Hsame.
  - destruct res; cbn; [ | exact Hsame ].
    inv_split i f Hi.
    + apply lookup_insert_Some in Hi as [[<- _] | [_ Hi]]; [ lia | eapply Hkeep, Hi ].
    + apply lookup_insert_Some in Hi as [[_ Hi] | [_ Hi]]; [ discriminate | apply Hpoll, Hi ].
  - unfold scale_cb. cbn. destruct (seek_result b); cbn; exact Hsame.
  - exact Hsame.
  - exact Hsame.
  - unfold state_changed_cb. cbn.
    destruct (decide (esrc = the_playbin)) as [-> | Hne]; cbn; [ | exact Hsame ].
    apply andb_true_iff in Hlaw. destruct Hlaw as [Hold Hstep].
    apply bool_decide_eq_true in Hold. subst o.
    assert (Hquiet : n <> GST_STATE_PAUSED ->
                     forall i, src !! i = Some SRC_timer_src_func -> False).
    { intros Hnp i Hi. destruct (Hpoll i Hi) as [_ Hst]. cbn in Hst. subst st.
      apply Hnp, state_step_from_playing, Hstep. }
    destruct n; cbn.
    + destruct st; discriminate Hstep.
    + inv_split i f Hi; [ eapply Hfresh, Hi | exfalso; eapply Hquiet; eauto; discriminate ].
    + inv_split i f Hi; [ eapply Hfresh, Hi | exfalso; eapply Hquiet; eauto; discriminate ].
    + destruct (Z.ltb_spec 0 ti) as [Hti | Hti]; cbn.
      * inv_split i f Hi.
        -- apply lookup_delete_Some in Hi as [_ Hi]. eapply Hfresh, Hi.
        -- apply lookup_delete_Some in Hi as [Hd Hi]. destruct (Hpoll i Hi) as [-> _].
           contradiction.
      * inv_split i f Hi; [ eapply Hfresh, Hi | ].
        exfalso. destruct (Hpoll i Hi) as [-> _]. specialize (Hfresh _ _ Hi). lia.
    + rewrite to_gint_small by (unfold G_MAXINT in *; lia).
      inv_split i f Hi.
      * apply lookup_insert_Some in Hi as [[<- _] | [_ Hi]]; [ lia | eapply Hkeep, Hi ].
      * apply lookup_insert_Some in Hi as [[<- _] | [_ Hi]]; [ auto | ].
        exfalso. eapply Hquiet; eauto; discriminate.
  - destruct (src !! tid) as [[|]|] eqn:Hid; cbn; [ | | exact Hsame ].
    + unfold timer_src_func. cbn.
      destruct (negb (query_position_result b =? du)); cbn; [ exact Hsame | ].
      inv_split i f Hi.
      * apply lookup_delete_Some in Hi as [_ Hi]. eapply Hfresh, Hi.
      * apply lookup_delete_Some in Hi as [Hd Hi].
        destruct (Hpoll _ Hi) as [-> _]. destruct (Hpoll _ Hid) as [-> _]. contradiction.
    + unfold timeline_make_thumbnails. cbn.
      destruct (c <? THUMBNAILS_NUMBER); cbn.
      * unfold extract_thumbnails. cbn.
        destruct (set_state_return b); cbn; try exact Hsame;
          destruct (pulled_sample b) as [[[[[?|] [?|]]|]]|]; cbn; exact Hsame.
      * inv_split i f Hi.
        -- apply lookup_delete_Some in Hi as [_ Hi]. eapply Hfresh, Hi.
        -- apply lookup_delete_Some in Hi as [_ Hi]. apply Hpoll, Hi.
Qed.

Lemma poller_inv_run (evs : list (Event * Backend)) (w : World) :
  poller_inv w -> lawful_run w evs = true -> poller_inv (run w evs).
Proof.
  revert w. induction evs as [| eb evs IH]; intros w Hinv Hlaw; cbn in *.
  - exact Hinv.
  - apply andb_true_iff in Hlaw. destruct Hlaw as [Hhd Htl].
    apply IH; [ apply poller_inv_dispatch; assumption | exact Htl ].
Qed.

(** C8 (amended).  In every state reached from [main] while the playbin
    announces its state changes step by step, at most one position poller is
    attached, and one is attached only if the recorded state is PLAYING.  The
    converse is not claimed: the poller detaches itself once the position it
    reads equals the duration, while the state stays PLAYING. *)
Theorem poller_unique_and_only_while_playing (evs : list (Event * Backend)) :
  lawful_run main_init evs = true ->
  let w := run main_init evs in
  (forall i j : Z, poller_active w i -> poller_active w j -> i = j) /\
  (forall i : Z, poller_active w i -> state (data w) = GST_STATE_PLAYING).
Proof.
  intros Hlaw w.
  destruct (poller_inv_run evs main_init poller_inv_main_init Hlaw) as (_ & _ & _ & Hpoll).
  fold w in Hpoll. split.
  - intros i j Hi Hj. destruct (Hpoll i Hi) as [-> _]. destruct (Hpoll j Hj) as [-> _].
    reflexivity.
  - intros i Hi. apply (Hpoll i Hi).
Qed.

Lemma poller_unique_and_only_while_playing_witness :
  lawful_run main_init open_and_play = true /\
  poller_active playing 2 /\
  state (data playing) = GST_STATE_PLAYING.
Proof.
  assert (Hlaw : lawful_run main_init open_and_play = true) by (vm_compute; reflexivity).
  assert (Hact : poller_active playing 2) by reflexivity.
  split; [ exact Hlaw | ]. split; [ exact Hact | ].
  exact (proj2 (poller_unique_and_only_while_playing open_and_play Hlaw) 2 Hact).
Defined.

(** C8, as stated, fails in its "if" direction: when the poller reads a
    position equal to the duration it detaches, and the session is left in
    PLAYING with no poller. *)
Lemma playing_without_poller :
  let evs := open_and_play ++ [(EvTimeout 2, b_playing one_minute)] in
  let w := run main_init evs in
  lawful_run main_init evs = true /\
  state (data w) = GST_STATE_PLAYING /\
  (forall id : Z, ~ poller_active w id).
Proof.
  cbv zeta. split; [ vm_compute; reflexivity | ]. split; [ vm_compute; reflexivity | ].
  intros id Hid. unfold poller_active in Hid.
  assert (Hsrc : sources (run main_init (open_and_play ++ [(EvTimeout 2, b_playing one_minute)]))
                 = <[1 := SRC_timeline_make_thumbnails]> ∅) by (vm_compute; reflexivity).
  rewrite Hsrc in Hid.
  apply lookup_insert_Some in Hid as [[_ Hid] | [_ Hid]]; [ discriminate Hid | ].
  rewrite lookup_empty in Hid. discriminate Hid.
Qed.

(** Outside the contract, two announcements of PLAYING in a row attach two
    pollers. *)
Lemma double_playing_attaches_two_pollers :
  let again := (ev_state GST_STATE_PAUSED GST_STATE_PLAYING, b_playing 0) in
  let w := run main_init (open_and_play ++ [again]) in
  lawful playing again = false /\ poller_active w 2 /\ poller_active w 3.
Proof. cbv zeta. repeat split; vm_compute; reflexivity. Qed.

(** ** After a confirmed pause *)

Lemma pause_detaches (w : World) (o p : GstState) (b : Backend) :
  poller_inv w ->
  let w1 := dispatch w (EvStateChanged the_playbin o GST_STATE_PAUSED p, b) in
  handles_ok w1 /\ no_poller w1 /\
  next_source_id w1 = next_source_id w /\
  (forall id, poller_active w id -> sources w1 !! id = None) /\
  count_eff is_position_query (trace w1) = count_eff is_position_query (trace w) /\
  count_eff is_slider_update (trace w1) = count_eff is_slider_update (trace w) /\
  count_eff is_position_update (trace w1) = count_eff is_position_update (trace w).
Proof.
  unfold poller_inv, handles_ok, no_poller, poller_active.
  intros ((Hpb & Htl) & Hnx & Hfresh & Hpoll).
  break_world w. subst pb tl. unfold state_changed_cb. cbn.
  destruct (decide (the_playbin = the_playbin)) as [_ | Hne]; [ | congruence ].
  destruct (Z.ltb_spec 0 ti) as [Hti | Hti]; cbn.
  - split; [ split; reflexivity | ]. split; [ | split; [ reflexivity | split ] ].
    + intros i Hi. apply lookup_delete_Some in Hi as [Hd Hi].
      destruct (Hpoll i Hi) as [-> _]. contradiction.
    + intros i Hi. destruct (Hpoll i Hi) as [-> _]. apply lookup_delete_eq.
    + count_trace.
  - split; [ split; reflexivity | ]. split; [ | split; [ reflexivity | split ] ].
    + intros i Hi. destruct (Hpoll i Hi) as [-> _]. specialize (Hfresh _ _ Hi). lia.
    + intros i Hi. destruct (Hpoll i Hi) as [-> _]. specialize (Hfresh _ _ Hi). lia.
    + count_trace.
Qed.

Lemma quiet_dispatch (w : World) (eb : Event * Backend) :
  handles_ok w -> no_poller w -> enters_playing eb = false ->
  let w' := dispatch w eb in
  handles_ok w' /\ no_poller w' /\
  count_eff is_position_query (trace w') = count_eff is_position_query (trace w) /\
  count_eff is_slider_update (trace w') = count_eff is_slider_update (trace w) /\
  count_eff is_position_update (trace w') =
    (count_eff is_position_update (trace w) + (if is_eos eb then 1 else 0))%nat.
Proof.
  destruct eb as [ev b]. unfold handles_ok, no_poller, poller_active, enters_playing, is_eos.
  intros (Hpb & Htl) Hnone Hev.
  break_world w. subst pb tl.
  pose proof (conj (eq_refl the_playbin) (eq_refl the_timelinebin)) as Hh.
  destruct ev as [ | | | res | target | msg | | esrc o n p | tid ]; cbn.
  - split; [ exact Hh | ]. split; [ exact Hnone | count_trace ].
  - split; [ exact Hh | ]. split; [ exact Hnone | count_trace ].
  - split; [ exact Hh | ]. split; [ exact Hnone | count_trace ].
  - destruct res; cbn; (split; [ exact Hh | ]); (split; [ | count_trace ]);
      [ | exact Hnone ].
    intros i Hi. apply lookup_insert_Some in Hi as [[_ Hi] | [_ Hi]];
      [ discriminate Hi | exact (Hnone i Hi) ].
  - unfold scale_cb. cbn.
    destruct (seek_result b); cbn; (split; [ exact Hh | ]);
      (split; [ exact Hnone | count_trace ]).
  - split; [ exact Hh | ]. split; [ exact Hnone | count_trace ].
  - split; [ exact Hh | ]. split; [ exact Hnone | count_trace ].
  - unfold state_changed_cb. cbn.
    destruct (decide (esrc = the_playbin)) as [-> | Hne]; cbn;
      [ | split; [ exact Hh | ]; split; [ exact Hnone | count_trace ] ].
    destruct n; cbn; try (split; [ exact Hh | ]; split; [ exact Hnone | count_trace ]; fail).
    + destruct (0 <? ti); cbn; (split; [ exact Hh | ]); (split; [ | count_trace ]);
        [ | exact Hnone ].
      intros i Hi. apply lookup_delete_Some in Hi as [_ Hi]. exact (Hnone i Hi).
    + cbn in Hev. rewrite bool_decide_eq_false in Hev. contradiction.
  - destruct (src !! tid) as [[|]|] eqn:Hid; cbn.
    + exfalso. exact (Hnone tid Hid).
    + unfold timeline_make_thumbnails. cbn.
      destruct (c <? THUMBNAILS_NUMBER); cbn.
      * unfold extract_thumbnails. cbn.
        destruct (set_state_return b); cbn;
          try (split; [ exact Hh | ]; split; [ exact Hnone | count_trace ]; fail);
          destruct (pulled_sample b) as [[[[[?|] [?|]]|]]|]; cbn;
          (split; [ exact Hh | ]); (split; [ exact Hnone | count_trace ]).
      * split; [ exact Hh | ]. split; [ | count_trace ].
        intros i Hi. apply lookup_delete_Some in Hi as [_ Hi]. exact (Hnone i Hi).
    + split; [ exact Hh | ]. split; [ exact Hnone | count_trace ].
Qed.

Lemma quiet_run (evs : list (Event * Backend)) (w : World) :
  handles_ok w -> no_poller w ->
  forallb (fun eb => negb (enters_playing eb)) evs = true ->
  let w' := run w evs in
  no_poller w' /\
  count_eff is_position_query (trace w') = count_eff is_position_query (trace w) /\
  count_eff is_slider_update (trace w') = count_eff is_slider_update (trace w) /\
  count_eff is_position_update (trace w') =
    (count_eff is_position_update (trace w) + eos_events evs)%nat.
Proof.
  revert w. induction evs as [| eb evs IH]; intros w Hh Hnone Hquiet w'; subst w'.
  - cbn. split; [ exact Hnone | ]. repeat split. lia.
  - rewrite run_cons. cbn [forallb eos_events] in *.
    apply andb_true_iff in Hquiet. destruct Hquiet as [Hhd Htl].
    apply negb_true_iff in Hhd.
    destruct (quiet_dispatch w eb Hh Hnone Hhd) as (Hh' & Hnone' & Hq & Hs & Hp).
    destruct (IH (dispatch w eb) Hh' Hnone' Htl) as (Hn2 & Hq2 & Hs2 & Hp2).
    split; [ exact Hn2 | ].
    split; [ rewrite Hq2; exact Hq | ]. split; [ rewrite Hs2; exact Hs | ].
    rewrite Hp2, Hp. lia.
Qed.

(** An id that has been handed out and detached is never attached again. *)
Lemma detached_stays (id0 : Z) (w : World) (eb : Event * Backend) :
  id0 < next_source_id w /\ sources w !! id0 = None ->
  id0 < next_source_id (dispatch w eb) /\ sources (dispatch w eb) !! id0 = None.
Proof.
  destruct eb as [ev b]. intros [Hlt Hnone]. break_world w.
  pose proof (conj Hlt Hnone) as Hsame.
  destruct ev as [ | | | res | target | msg | | esrc o n p | tid ]; cbn;
    try exact Hsame.
  - destruct res; cbn; [ | exact Hsame ].
    split; [ lia | ]. rewrite lookup_insert_ne by lia. exact Hnone.
  - unfold scale_cb. cbn. destruct (seek_result b); cbn; exact Hsame.
  - unfold state_changed_cb. cbn.
    destruct (decide (esrc = pb)); cbn; [ | exact Hsame ].
    destruct n; cbn; try exact Hsame.
    + destruct (0 <? ti); cbn; [ | exact Hsame ].
      split; [ exact Hlt | ]. apply lookup_delete_None. right. exact Hnone.
    + split; [ lia | ]. rewrite lookup_insert_ne by lia. exact Hnone.
  - destruct (src !! tid) as [[|]|]; cbn; [ | | exact Hsame ].
    + unfold timer_src_func. cbn.
      destruct (negb (query_position_result b =? du)); cbn; [ exact Hsame | ].
      split; [ exact Hlt | ]. apply lookup_delete_None. right. exact Hnone.
    + unfold timeline_make_thumbnails. cbn.
      destruct (c <? THUMBNAILS_NUMBER); cbn.
      * unfold extract_thumbnails. cbn.
        destruct (set_state_return b); cbn; try exact Hsame;
          destruct (pulled_sample b) as [[[[[?|] [?|]]|]]|]; cbn; exact Hsame.
      * split; [ exact Hlt | ]. apply lookup_delete_None. right. exact Hnone.
Qed.

Lemma dispatch_relabel (w : World) (eb : Event * Backend) :
  dispatch w (relabel w eb) = dispatch w eb.
Proof. destruct eb as [[ | | | res | target | el msg dbg | | esrc o n p | tid ] b]; reflexivity. Qed.

Lemma lawful_relabel (w : World) (eb : Event * Backend) :
  stepwise w eb = true -> lawful w (relabel w eb) = true.
Proof.
  destruct eb as [[ | | | res | target | el msg dbg | | esrc o n p | tid ] b];
    unfold stepwise, lawful, relabel; cbn; try (intros H; exact H).
  destruct (decide (esrc = playbin (data w))) as [Heq | Hne]; [ | intros H; exact H ].
  intros H. apply andb_true_iff in H. destruct H as [Hfit Hstep].
  rewrite Hfit, Hstep, bool_decide_eq_true_2 by reflexivity. reflexivity.
Qed.

Lemma lawful_stepwise (w : World) (eb : Event * Backend) :
  lawful w eb = true -> stepwise w eb = true.
Proof.
  destruct eb as [[ | | | res | target | el msg dbg | | esrc o n p | tid ] b];
    unfold stepwise, lawful; cbn; try (intros H; exact H).
  destruct (decide (esrc = playbin (data w))) as [Heq | Hne]; [ | intros H; exact H ].
  intros H. apply andb_true_iff in H. destruct H as [Hfit H].
  apply andb_true_iff in H. destruct H as [Hold Hstep].
  apply bool_decide_eq_true in Hold. subst o. rewrite Hfit, Hstep. reflexivity.
Qed.

Lemma poller_inv_stepwise_run (evs : list (Event * Backend)) (w : World) :
  poller_inv w -> stepwise_run w evs = true -> poller_inv (run w evs).
Proof.
  revert w. induction evs as [| eb evs IH]; intros w Hinv Hstep; cbn in *.
  - exact Hinv.
  - apply andb_true_iff in Hstep. destruct Hstep as [Hhd Htl].
    apply IH; [ | exact Htl ].
    rewrite <- dispatch_relabel. apply poller_inv_dispatch; [ exact Hinv | ].
    apply lawful_relabel, Hhd.
Qed.

(** C9 (amended).  Provided the playbin has announced each of its states one
    step from the one before and GLib's ids fit a [gint]: once the playbin
    has announced PAUSED, no position poller is attached, and none is until
    the playbin announces PLAYING again.  Whatever happens in between, no
    position is queried and the slider is not touched, the position label is
    written by end-of-stream handling only (once per end of stream), and a
    timeout carrying the id of the poller that was removed changes nothing.
    Ticks are counted, not timed: no poller update at all follows the
    announcement, so none follows it by more than one 20 ms interval. *)
Theorem pause_cancels_poller (evs evs' : list (Event * Backend)) (o p : GstState)
  (b : Backend) :
  let w := run main_init evs in
  let w1 := dispatch w (EvStateChanged the_playbin o GST_STATE_PAUSED p, b) in
  let w2 := run w1 evs' in
  stepwise_run main_init evs = true ->
  forallb (fun eb => negb (enters_playing eb)) evs' = true ->
  (forall id : Z, ~ poller_active w1 id) /\
  (forall id : Z, ~ poller_active w2 id) /\
  (forall (id : Z) (b' : Backend),
     poller_active w id -> dispatch w2 (EvTimeout id, b') = w2) /\
  count_eff is_position_query (trace w2) = count_eff is_position_query (trace w) /\
  count_eff is_slider_update (trace w2) = count_eff is_slider_update (trace w) /\
  count_eff is_position_update (trace w2) =
    (count_eff is_position_update (trace w) + eos_events evs')%nat.
Proof.
  intros w w1 w2 Hstep Hquiet.
  pose proof (poller_inv_stepwise_run evs main_init poller_inv_main_init Hstep) as Hinv.
  fold w in Hinv.
  destruct (pause_detaches w o p b Hinv) as (Hh1 & Hnone1 & Hnx1 & Hgone & Hq1 & Hs1 & Hp1).
  fold w1 in Hh1, Hnone1, Hnx1, Hgone, Hq1, Hs1, Hp1.
  destruct (quiet_run evs' w1 Hh1 Hnone1 Hquiet) as (Hnone2 & Hq2 & Hs2 & Hp2).
  fold w2 in Hnone2, Hq2, Hs2, Hp2.
  split; [ exact Hnone1 | ]. split; [ exact Hnone2 | ].
  split; [ | split; [ congruence | split; [ congruence | rewrite Hp2, Hp1; reflexivity ] ] ].
  intros id b' Hid.
  assert (Hstay : id < next_source_id w2 /\ sources w2 !! id = None).
  { apply (run_invariant _ (detached_stays id)).
    split; [ | apply Hgone, Hid ].
    rewrite Hnx1. destruct Hinv as (_ & _ & Hfresh & _).
    apply (Hfresh id _ Hid). }
  cbn. destruct Hstay as [_ ->]. reflexivity.
Qed.

Lemma pause_cancels_poller_witness :
  let evs' := [ (EvTimeout 3, b_playing (3 * GST_SECOND));
                (EvTimeout 1, b_frame);
                (EvEos, b_playing one_minute);
                (EvTimeout 3, b_playing (4 * GST_SECOND)) ] in
  let w := run main_init play_seek_play in
  let w1 := dispatch w (ev_state GST_STATE_PLAYING GST_STATE_PAUSED, b_playing GST_SECOND) in
  let w2 := run w1 evs' in
  stepwise_run main_init play_seek_play = true /\
  lawful_run main_init play_seek_play = false /\
  poller_active w 3 /\
  sources w2 !! 3 = None /\
  count_eff is_slider_update (trace w2) = 2%nat /\
  count_eff is_position_query (trace w2) = 2%nat.
Proof.
  intros evs' w w1 w2.
  assert (Hstep : stepwise_run main_init play_seek_play = true) by (vm_compute; reflexivity).
  assert (Hquiet : forallb (fun eb => negb (enters_playing eb)) evs' = true)
    by (vm_compute; reflexivity).
  destruct (pause_cancels_poller play_seek_play evs' GST_STATE_PLAYING GST_STATE_VOID_PENDING
              (b_playing GST_SECOND) Hstep Hquiet) as (_ & Hnone & _ & Hq & Hs & _).
  split; [ exact Hstep | ]. split; [ vm_compute; reflexivity | ].
  split; [ reflexivity | ].
  split; [ | split; [ eapply eq_trans; [ exact Hs | vm_compute; reflexivity ]
                    | eapply eq_trans; [ exact Hq | vm_compute; reflexivity ] ] ].
  destruct (sources w2 !! 3) as [[|]|] eqn:H3; [ | | reflexivity ].
  - exfalso. exact (Hnone 3 H3).
  - vm_compute in H3. discriminate H3.
Defined.

(** Outside the contract the pause can miss a poller: of two attached by
    two announcements of PLAYING in a row, only the later one is removed. *)
Lemma double_playing_poller_survives_pause :
  let again := (ev_state GST_STATE_PAUSED GST_STATE_PLAYING, b_playing 0) in
  let pause := (ev_state GST_STATE_PLAYING GST_STATE_PAUSED, b_playing 0) in
  let w := run main_init (open_and_play ++ [again; pause]) in
  stepwise playing again = false /\ poller_active w 2 /\ sources w !! 3 = None.
Proof. cbv zeta. repeat split; vm_compute; reflexivity. Qed.

(** C9, as stated, fails: after the pause has been confirmed and the poller
    removed, an end of stream still writes the position label, however much
    later it arrives. *)
Lemma position_written_after_pause :
  let paused := run main_init play_then_pause in
  let w := dispatch paused (EvEos, b_playing one_minute) in
  lawful_run main_init (play_then_pause ++ [(EvEos, b_playing one_minute)]) = true /\
  state (data paused) = GST_STATE_PAUSED /\
  sources paused !! 2 = None /\
  count_eff is_position_update (trace w) = S (count_eff is_position_update (trace paused)) /\
  trace w = trace paused ++
    [ g_print ("End-Of-Stream reached." +:+ nl);
      gst_element_set_state the_playbin GST_STATE_READY;
      gtk_label_set_text "position" "Position: 00:01:00.000" ].
Proof.
  cbv zeta. repeat split; vm_compute; reflexivity.
Qed.

(** * Further properties of the code *)

(** ** The shape of a time string *)

Lemma length_append (s1 s2 : string) :
  String.length (s1 +:+ s2) = (String.length s1 + String.length s2)%nat.
Proof.
  induction s1 as [| c s1 IH]; [ reflexivity | ].
  change (S (String.length (s1 +:+ s2)) = S (String.length s1 + String.length s2)).
  rewrite IH. reflexivity.
Qed.

Lemma length_zeros (k : nat) : String.length (zeros k) = k.
Proof. induction k as [| k IH]; cbn; [ reflexivity | rewrite IH; reflexivity ]. Qed.

Lemma length_substring_prefix (n : nat) (s : string) :
  (n <= String.length s)%nat -> String.length (String.substring 0 n s) = n.
Proof.
  revert s. induction n as [| n IH]; intros s Hlen.
  - destruct s; reflexivity.
  - destruct s as [| c s]; cbn in *; [ lia | ]. rewrite IH by lia. reflexivity.
Qed.

Lemma length_printf_0u (width : nat) (n : Z) :
  (width <= String.length (printf_0u width n))%nat.
Proof. unfold printf_0u. rewrite length_append, length_zeros. lia. Qed.

(** X1.  Whatever [gint64] it is given, [time_to_string] returns exactly
    twelve characters: the formatted line is never shorter than eighteen,
    and [g_strndup] keeps the first twelve. *)
Theorem time_to_string_length (time : Z) :
  String.length (time_to_string time) = 12%nat.
Proof.
  unfold time_to_string.
  destruct (to_guint64 time =? GST_CLOCK_TIME_NONE); [ reflexivity | ].
  unfold g_strndup, TIME_STRING_LENGTH.
  change (Z.to_nat (13 - 1)) with 12%nat.
  apply length_substring_prefix.
  unfold printf_time. destruct (GST_TIME_ARGS time) as [[[h m] s] ns].
  rewrite !length_append. cbn [String.length].
  pose proof (length_printf_0u 2 h). pose proof (length_printf_0u 2 m).
  pose proof (length_printf_0u 2 s). pose proof (length_printf_0u 9 ns). lia.
Qed.

Lemma append_assoc (s1 s2 s3 : string) : (s1 +:+ s2) +:+ s3 = s1 +:+ (s2 +:+ s3).
Proof.
  induction s1 as [| c s1 IH]; [ reflexivity | ].
  change (String c ((s1 +:+ s2) +:+ s3) = String c (s1 +:+ (s2 +:+ s3))).
  rewrite IH. reflexivity.
Qed.

Lemma append_empty_r (s : string) : s +:+ "" = s.
Proof.
  induction s as [| c s IH]; [ reflexivity | ].
  change (String c (s +:+ "") = String c s). rewrite IH. reflexivity.
Qed.

Lemma zeros_snoc (k : nat) (acc : string) :
  zeros k +:+ String "0" acc = zeros (S k) +:+ acc.
Proof.
  induction k as [| k IH]; [ reflexivity | ].
  change (String "0" (zeros k +:+ String "0" acc) = String "0" (zeros (S k) +:+ acc)).
  rewrite IH. reflexivity.
Qed.

Lemma fixed_digits_zero (k : nat) (acc : string) :
  fixed_digits k 0 acc = zeros k +:+ acc.
Proof.
  revert acc. induction k as [| k IH]; intros acc; [ reflexivity | ].
  cbn [fixed_digits]. change (0 / 10) with 0. change (digit_char (0 mod 10)) with "0"%char.
  rewrite IH. apply zeros_snoc.
Qed.

(** [utoa_aux] prints the digits of [n] without leading zeros; padded to [k]
    places they are the [k] low digits. *)
Lemma utoa_aux_fixed (k : nat) :
  forall (fuel : nat) (n : Z) (acc : string),
    (1 <= k <= fuel)%nat -> 0 <= n < 10 ^ Z.of_nat k ->
    exists u : string,
      utoa_aux fuel n acc = u +:+ acc /\
      (1 <= String.length u <= k)%nat /\
      fixed_digits k n acc = zeros (k - String.length u) +:+ u +:+ acc.
Proof.
  induction k as [| k IH]; intros fuel n acc Hk Hn; [ lia | ].
  destruct fuel as [| fuel]; [ lia | ].
  cbn [utoa_aux fixed_digits].
  destruct (Z.eqb_spec (n / 10) 0) as [Hz | Hnz].
  - exists (String (digit_char (n mod 10)) "").
    split; [ reflexivity | ]. split; [ cbn; lia | ].
    rewrite Hz, fixed_digits_zero. cbn [String.length].
    replace (S k - 1)%nat with k by lia. reflexivity.
  - assert (Hk' : (1 <= k)%nat).
    { destruct k as [| k']; [ | lia ]. exfalso. apply Hnz.
      change (10 ^ Z.of_nat 1) with 10 in Hn. apply Z.div_small. lia. }
    assert (Hn' : 0 <= n / 10 < 10 ^ Z.of_nat k).
    { split; [ apply Z.div_pos; lia | ].
      apply Z.div_lt_upper_bound; [ lia | ].
      rewrite Nat2Z.inj_succ, Z.pow_succ_r in Hn by lia. lia. }
    destruct (IH fuel (n / 10) (String (digit_char (n mod 10)) acc)) as (u & Hu & Hlen & Hfix);
      [ lia | exact Hn' | ].
    exists (u +:+ String (digit_char (n mod 10)) "").
    rewrite Hu, Hfix, length_append. cbn [String.length].
    split; [ rewrite append_assoc; reflexivity | ]. split; [ lia | ].
    replace (S k - (String.length u + 1))%nat with (k - String.length u)%nat by lia.
    rewrite append_assoc. reflexivity.
Qed.

Lemma printf_0u_fixed (k : nat) (n : Z) :
  (1 <= k <= 20)%nat -> 0 <= n < 10 ^ Z.of_nat k ->
  printf_0u k n = fixed_digits k n "".
Proof.
  intros Hk Hn. unfold printf_0u, utoa.
  destruct (utoa_aux_fixed k 20 n "" Hk Hn) as (u & Hu & _ & Hfix).
  rewrite Hfix, Hu, !append_empty_r. reflexivity.
Qed.

(** X2.  For a time below one hundred hours [time_to_string] is
    ["%02u:%02u:%02u.%03u"] of the hours, minutes, seconds and milliseconds,
    the milliseconds cut off, not rounded. *)
Theorem time_to_string_format (t : Z) :
  0 <= t < 100 * (GST_SECOND * 60 * 60) ->
  time_to_string t =
    printf_0u 2 (t / (GST_SECOND * 60 * 60)) +:+ ":" +:+
    printf_0u 2 (t / (GST_SECOND * 60) mod 60) +:+ ":" +:+
    printf_0u 2 (t / GST_SECOND mod 60) +:+ "." +:+
    printf_0u 3 (t mod GST_SECOND / 1000000).
Proof.
  unfold GST_SECOND. intros Ht.
  assert (Hu : to_guint64 t = t) by (unfold to_guint64; apply Z.mod_small; lia).
  assert (Hh : 0 <= t / (1000000000 * 60 * 60) < 100).
  { split; [ apply Z.div_pos; lia | apply Z.div_lt_upper_bound; lia ]. }
  assert (Hm : 0 <= t / (1000000000 * 60) mod 60 < 60) by (apply Z.mod_pos_bound; lia).
  assert (Hs : 0 <= t / 1000000000 mod 60 < 60) by (apply Z.mod_pos_bound; lia).
  assert (Hns : 0 <= t mod 1000000000 < 1000000000) by (apply Z.mod_pos_bound; lia).
  assert (Hms : 0 <= t mod 1000000000 / 1000000 < 1000).
  { split; [ apply Z.div_pos; lia | apply Z.div_lt_upper_bound; lia ]. }
  assert (Hg : forall x, 0 <= x < 1000000000 -> to_guint x = x)
    by (intros x Hx; unfold to_guint; apply Z.mod_small; lia).
  unfold time_to_string, printf_time, GST_TIME_ARGS, GST_CLOCK_TIME_IS_VALID, GST_SECOND.
  rewrite Hu.
  destruct (Z.eqb_spec t GST_CLOCK_TIME_NONE) as [He | _];
    [ unfold GST_CLOCK_TIME_NONE in He; lia | ].
  cbn [negb].
  rewrite (Hg (t / (1000000000 * 60 * 60))), (Hg (t / (1000000000 * 60) mod 60)),
    (Hg (t / 1000000000 mod 60)), (Hg (t mod 1000000000)) by lia.
  set (h := t / (1000000000 * 60 * 60)) in *.
  set (m := t / (1000000000 * 60) mod 60) in *.
  set (sec := t / 1000000000 mod 60) in *.
  set (ns := t mod 1000000000) in *.
  rewrite (printf_0u_fixed 2 h), (printf_0u_fixed 2 m), (printf_0u_fixed 2 sec),
    (printf_0u_fixed 9 ns), (printf_0u_fixed 3 (ns / 1000000))
    by (first [ lia | cbn; lia ]).
  cbn [fixed_digits]. unfold g_strndup, TIME_STRING_LENGTH.
  change (Z.to_nat (13 - 1)) with 12%nat.
  cbn [String.append String.substring].
  rewrite !Z.div_div by lia. cbn [Z.mul Pos.mul].
  reflexivity.
Qed.

Lemma time_to_string_format_witness :
  0 <= 3725999999999 < 100 * (GST_SECOND * 60 * 60) /\
  time_to_string 3725999999999 = "01:02:05.999".
Proof.
  assert (H : 0 <= 3725999999999 < 100 * (GST_SECOND * 60 * 60))
    by (vm_compute; split; congruence).
  split; [ exact H | ].
  rewrite (time_to_string_format 3725999999999 H). vm_compute. reflexivity.
Defined.

(** ** Spacing of the seek targets *)

(** X3.  Consecutive seek targets are a tenth of the duration apart, give or
    take the nanosecond lost to integer division. *)
Theorem thumbnail_targets_evenly_spaced (D s : Z) :
  0 < D -> 100 * D <= G_MAXINT64 -> 0 <= s < 9 ->
  D / 10 <= thumbnail_position (s + 1) D - thumbnail_position s D <= D / 10 + 1.
Proof.
  intros HD Hmax Hs.
  rewrite !thumbnail_position_tenth by lia.
  replace ((s + 1 + 1) * D) with ((s + 1) * D + D) by lia.
  generalize ((s + 1) * D). intros a.
  Z.div_mod_to_equations. lia.
Qed.

Lemma thumbnail_targets_evenly_spaced_witness :
  0 < one_minute /\ 100 * one_minute <= G_MAXINT64 /\
  one_minute / 10 <= thumbnail_position 4 one_minute - thumbnail_position 3 one_minute
    <= one_minute / 10 + 1.
Proof.
  assert (H : 0 < one_minute /\ 100 * one_minute <= G_MAXINT64)
    by (vm_compute; split; congruence).
  destruct H as [H1 H2]. split; [ exact H1 | ]. split; [ exact H2 | ].
  apply (thumbnail_targets_evenly_spaced one_minute 3 H1 H2). lia.
Defined.

(** ** Edge cases of one extraction *)

(** X4.  An unknown duration is not guarded against: when the timeline
    pipeline cannot tell its duration the step stores the sentinel and still
    seeks, to 0 at steps 0..8 and to -1 at step 9. *)
Theorem unknown_duration_still_seeks (w : World) (b : Backend) (s : Z) :
  paused_accepted b -> query_duration_result b = gint64_NONE -> 0 <= s <= 9 ->
  duration (data (extract_thumbnails b s w)) = gint64_NONE /\
  In (gst_element_seek_simple (timelinebin (data w)) (if s <? 9 then 0 else -1))
     (trace (extract_thumbnails b s w)) /\
  In (pull_preroll (timelinebin (data w))) (trace (extract_thumbnails b s w)).
Proof.
  intros Hacc Hq Hs.
  destruct (extract_thumbnails_accepted b s w Hacc) as (tail & Hd & _ & _ & _ & Htr & _).
  rewrite Hd, Htr, Hq. split; [ reflexivity | ].
  assert (Hpos : thumbnail_position s gint64_NONE = if s <? 9 then 0 else -1).
  { assert (Hcases : s = 0 \/ s = 1 \/ s = 2 \/ s = 3 \/ s = 4 \/ s = 5 \/ s = 6 \/
                     s = 7 \/ s = 8 \/ s = 9) by lia.
    repeat (destruct Hcases as [-> | Hcases]; [ reflexivity | ]). subst s. reflexivity. }
  rewrite Hpos. split; apply in_or_app; right; cbn; auto.
Qed.

Lemma unknown_duration_still_seeks_witness :
  let w' := extract_thumbnails b_unknown_duration 4 main_init in
  paused_accepted b_unknown_duration /\
  duration (data w') = gint64_NONE /\
  In (gst_element_seek_simple the_timelinebin 0) (trace w').
Proof.
  intros w'.
  assert (Hacc : paused_accepted b_unknown_duration) by (right; reflexivity).
  destruct (unknown_duration_still_seeks main_init b_unknown_duration 4 Hacc)
    as (Hd & Hseek & _); [ reflexivity | lia | ].
  split; [ exact Hacc | ]. split; [ exact Hd | exact Hseek ].
Defined.

(** X5.  One call of [extract_thumbnails] writes snapshot.png exactly when
    the PAUSED request was accepted and the pulled sample has a format with a
    readable width or height (one of the two is enough).  Apart from
    [data->duration] it changes nothing of the program state. *)
Theorem extract_thumbnails_saves_iff (b : Backend) (step : Z) (w : World) :
  let w' := extract_thumbnails b step w in
  (exists delta,
     trace w' = trace w ++ delta /\
     (In (gdk_pixbuf_save "snapshot.png") delta <-> paused_accepted b /\ usable_frame b)) /\
  state (data w') = state (data w) /\
  position (data w') = position (data w) /\
  timer_id (data w') = timer_id (data w) /\
  count w' = count w /\
  sources w' = sources w.
Proof.
  intros w'. subst w'. unfold extract_thumbnails, paused_accepted, usable_frame.
  destruct b as [ret qd qp sample sk]. cbn.
  destruct ret; cbn;
    try (split; [ | repeat split ]; eexists; rewrite <- !app_assoc;
         (split; [ reflexivity | ]); cbn;
         split; [ intros [H | [H | []]]; discriminate H
                | intros [[H | H] _]; discriminate H ]).
  all: destruct sample as [[[[[wd|] [ht|]]|]]|]; cbn;
    (split; [ | repeat split ]); eexists; rewrite <- !app_assoc;
    (split; [ reflexivity | ]); cbn.
  all: split;
    [ intros H; repeat (destruct H as [H | H]; try discriminate H); try contradiction;
      (split; [ auto | ]); eexists; eexists;
      (split; [ reflexivity | split; [ reflexivity | ] ]); cbn; eauto
    | intros [_ (sm & cp & Hs & Hc & Hdim)]; try discriminate Hs;
      injection Hs as <-; cbn in Hc; try discriminate Hc; injection Hc as <-; cbn in Hdim;
      try (destruct Hdim as [[? Hx] | [? Hx]]; discriminate Hx); auto 10 ].
Qed.

(** ** [update_widget] on any widget tree *)

Lemma update_controls_one (d : CustomData) (type : widget_type) (controls : list string) :
  update_controls d type controls = [] \/
  (type <> WIDGET_TYPE_TIMELINE /\ update_controls d type controls = [widget_update d type]).
Proof.
  induction controls as [| control rest IH]; cbn; [ left; reflexivity | ].
  destruct (String.eqb_spec control (widget_type_to_string type)) as [-> | Hne];
    [ | exact IH ].
  destruct type; cbn; [ right | right | right | left ];
    first [ reflexivity | split; [ discriminate | reflexivity ] ].
Qed.

(** X6.  Whatever the children of the main box are, [update_widget] issues
    nothing but the update of the widget type it was called for, at most once
    per box, and never for a box named main_hbox or timeline unless the type
    is the timeline's. *)
Theorem update_boxes_any_tree (d : CustomData) (type : widget_type) (boxes : list GtkBox) :
  Forall (eq (widget_update d type)) (update_boxes d type boxes) /\
  (length (update_boxes d type boxes) <=
   match type with
   | WIDGET_TYPE_TIMELINE => 1
   | _ => length (List.filter is_controls_box boxes)
   end)%nat.
Proof.
  induction boxes as [| box rest [IHall IHlen]]; cbn [update_boxes List.filter].
  - split; [ constructor | destruct type; cbn; lia ].
  - destruct (String.eqb (box_name box) "main_hbox") eqn:Emain.
    { assert (Hc : is_controls_box box = false)
        by (unfold is_controls_box; rewrite Emain; reflexivity).
      rewrite Hc. split; assumption. }
    destruct (String.eqb (box_name box) "timeline") eqn:Etl.
    { assert (Hc : is_controls_box box = false)
        by (unfold is_controls_box; rewrite Emain, Etl; reflexivity).
      rewrite Hc. apply String.eqb_eq in Etl.
      destruct type; try (split; assumption).
      rewrite Etl. split; [ repeat constructor | cbn; lia ]. }
    assert (Hc : is_controls_box box = true)
      by (unfold is_controls_box; rewrite Emain, Etl; reflexivity).
    rewrite Hc.
    destruct (update_controls_one d type (box_children box)) as [-> | [Hty ->]].
    + cbn [app]. split; [ exact IHall | destruct type; cbn [length]; lia ].
    + cbn [app]. split; [ constructor; [ reflexivity | exact IHall ] | ].
      destruct type; cbn [length]; first [ lia | contradiction ].
Qed.

(** X7.  On any tree, a timeline update packs exactly one image if some
    child of the main box is named timeline and nothing otherwise; a control
    named timeline inside another box is not touched. *)
Theorem update_boxes_timeline_once (d : CustomData) (boxes : list GtkBox) :
  update_boxes d WIDGET_TYPE_TIMELINE boxes =
  if existsb (fun box => String.eqb (box_name box) "timeline") boxes
  then [gtk_box_pack_image "timeline" "snapshot.png"]
  else [].
Proof.
  induction boxes as [| box rest IH]; cbn [update_boxes existsb]; [ reflexivity | ].
  destruct (String.eqb_spec (box_name box) "main_hbox") as [Hmain | _].
  - rewrite Hmain. cbn. exact IH.
  - destruct (String.eqb_spec (box_name box) "timeline") as [-> | _]; cbn [orb].
    + reflexivity.
    + destruct (update_controls_one d WIDGET_TYPE_TIMELINE (box_children box))
        as [-> | [Hty _]]; [ exact IH | contradiction ].
Qed.

(** ** More on the position poller *)

(** X8.  The poller compares with [!=]: whenever the position it reads
    differs from [data->duration] it writes the label and sets the slider
    from the two raw values and stays attached, also when the position is
    past the duration or the duration is unknown or zero. *)
Theorem poller_tick_unequal (w : World) (b : Backend) (id : Z) :
  poller_active w id -> query_position_result b <> duration (data w) ->
  let w' := dispatch w (EvTimeout id, b) in
  let q := query_position_result b in
  poller_active w' id /\
  timer_id (data w') = timer_id (data w) /\
  trace w' = trace w ++
    [ gst_element_query_position (playbin (data w));
      gtk_label_set_text "position" ("Position: " +:+ time_to_string q);
      gtk_range_set_value "scale" q (duration (data w)) ].
Proof.
  intros Hid Hne w' q. subst w' q. unfold poller_active in *.
  cbn. rewrite Hid. cbn. unfold timer_src_func. cbn.
  destruct (Z.eqb_spec (query_position_result b) (duration (data w))) as [Heq | _];
    [ contradiction | ].
  cbn. split; [ exact Hid | ]. split; [ reflexivity | ].
  rewrite <- !app_assoc. reflexivity.
Qed.

Lemma poller_tick_unequal_witness :
  let w := run main_init
             [ (ev_state GST_STATE_NULL GST_STATE_READY, b_unknown_duration);
               (ev_state GST_STATE_READY GST_STATE_PAUSED, b_unknown_duration);
               (ev_state GST_STATE_PAUSED GST_STATE_PLAYING, b_unknown_duration) ] in
  let w' := dispatch w (EvTimeout 1, b_playing GST_SECOND) in
  poller_active w 1 /\ duration (data w) = gint64_NONE /\
  poller_active w' 1 /\
  In (gtk_range_set_value "scale" GST_SECOND gint64_NONE) (trace w').
Proof.
  intros w w'.
  assert (Hid : poller_active w 1) by reflexivity.
  destruct (poller_tick_unequal w (b_playing GST_SECOND) 1 Hid) as (Hact & _ & Htr);
    [ vm_compute; discriminate | ].
  split; [ exact Hid | ]. split; [ reflexivity | ]. split; [ exact Hact | ].
  fold w' in Htr. rewrite Htr. apply in_or_app. right. vm_compute. tauto.
Defined.

(** ** The recorded state *)

Lemma handles_ok_dispatch (w : World) (eb : Event * Backend) :
  handles_ok w -> handles_ok (dispatch w eb).
Proof.
  destruct eb as [ev b]. unfold handles_ok. intros [Hpb Htl].
  break_world w. subst pb tl.
  destruct ev as [ | | | res | target | msg | | esrc o n p | tid ]; cbn; auto.
  - destruct res; cbn; auto.
  - unfold scale_cb. cbn. destruct (seek_result b); cbn; auto.
  - unfold state_changed_cb. cbn. destruct (decide (esrc = the_playbin)); cbn; auto.
    destruct n; cbn; try (destruct (0 <? ti); cbn); auto.
  - destruct (src !! tid) as [[|]|]; cbn; auto.
    + unfold timer_src_func. cbn.
      destruct (negb (query_position_result b =? du)); cbn; auto.
    + unfold timeline_make_thumbnails. cbn.
      destruct (c <? THUMBNAILS_NUMBER); cbn; auto.
      unfold extract_thumbnails. cbn.
      destruct (set_state_return b); cbn; auto;
        destruct (pulled_sample b) as [[[[[?|] [?|]]|]]|]; cbn; auto.
Qed.

Lemma state_dispatch (w : World) (eb : Event * Backend) :
  handles_ok w -> state (data (dispatch w eb)) = announced (state (data w)) eb.
Proof.
  destruct eb as [ev b]. unfold handles_ok, announced. intros [Hpb Htl].
  break_world w. subst pb tl.
  destruct ev as [ | | | res | target | msg | | esrc o n p | tid ]; cbn; auto.
  - destruct res; cbn; auto.
  - unfold scale_cb. cbn. destruct (seek_result b); cbn; auto.
  - unfold state_changed_cb. cbn. destruct (decide (esrc = the_playbin)); cbn; auto.
    destruct n; cbn; try (destruct (0 <? ti); cbn); auto.
  - destruct (src !! tid) as [[|]|]; cbn; auto.
    + unfold timer_src_func. cbn.
      destruct (negb (query_position_result b =? du)); cbn; auto.
    + unfold timeline_make_thumbnails. cbn.
      destruct (c <? THUMBNAILS_NUMBER); cbn; auto.
      unfold extract_thumbnails. cbn.
      destruct (set_state_return b); cbn; auto;
        destruct (pulled_sample b) as [[[[[?|] [?|]]|]]|]; cbn; auto.
Qed.

(** X9.  [data->state] is at all times the last state the playbin announced
    (the zero of [memset] before the first announcement): clicks, errors, end
    of stream, timeouts and the state changes of other elements never touch
    it. *)
Theorem state_is_last_announced (evs : list (Event * Backend)) :
  state (data (run main_init evs)) = fold_left announced evs GST_STATE_VOID_PENDING.
Proof.
  change GST_STATE_VOID_PENDING with (state (data main_init)).
  assert (Hh : handles_ok main_init) by (split; reflexivity).
  revert Hh. generalize main_init as w.
  induction evs as [| eb evs IH]; intros w Hh; cbn [fold_left]; [ reflexivity | ].
  rewrite run_cons, IH by (apply handles_ok_dispatch, Hh).
  rewrite state_dispatch by exact Hh. reflexivity.
Qed.

(** ** Timers over a whole run *)

Lemma steppers_insert_stepper (m : gmap Z GSourceFunc) (i : Z) :
  m !! i = None ->
  size (steppers (<[i := SRC_timeline_make_thumbnails]> m)) = S (size (steppers m)).
Proof.
  intros Hi. unfold steppers.
  rewrite map_filter_insert_True by reflexivity.
  apply map_size_insert_None. apply map_lookup_filter_None. left. exact Hi.
Qed.

Lemma steppers_insert_poller (m : gmap Z GSourceFunc) (i : Z) :
  m !! i = None -> steppers (<[i := SRC_timer_src_func]> m) = steppers m.
Proof.
  intros Hi. unfold steppers. apply map_filter_insert_not'.
  - cbn. discriminate.
  - intros y Hy. rewrite Hi in Hy. discriminate Hy.
Qed.

Lemma steppers_delete_poller (m : gmap Z GSourceFunc) (i : Z) :
  m !! i = Some SRC_timer_src_func -> steppers (delete i m) = steppers m.
Proof.
  intros Hi. unfold steppers. apply map_filter_delete_not.
  intros y Hy. rewrite Hi in Hy. injection Hy as <-. cbn. discriminate.
Qed.

Lemma steppers_delete_stepper (m : gmap Z GSourceFunc) (i : Z) :
  m !! i = Some SRC_timeline_make_thumbnails ->
  S (size (steppers (delete i m))) = size (steppers m).
Proof.
  intros Hi.
  assert (Hf : steppers m !! i = Some SRC_timeline_make_thumbnails)
    by (apply map_lookup_filter_Some; split; [ exact Hi | reflexivity ]).
  unfold steppers in *. rewrite map_filter_delete, map_size_delete, Hf.
  destruct (size (filter _ m)) eqn:Hsz; [ | reflexivity ].
  apply map_size_empty_inv in Hsz. rewrite Hsz, lookup_empty in Hf. discriminate Hf.
Qed.

Lemma timer_id_valid_dispatch (w : World) (eb : Event * Backend) :
  poller_inv w -> lawful w eb = true -> timer_id_valid w ->
  timer_id_valid (dispatch w eb).
Proof.
  destruct eb as [ev b]. unfold poller_inv, handles_ok, timer_id_valid, poller_active, lawful.
  intros ((Hpb & Htl) & Hnx & Hfresh & Hpoll) Hlaw Hti.
  apply andb_true_iff in Hlaw. destruct Hlaw as [Hfit Hlaw]. apply Z.leb_le in Hfit.
  break_world w. subst pb tl.
  destruct ev as [ | | | res | target | msg | | esrc o n p | tid ]; cbn; try exact Hti.
  - destruct res; cbn; [ | exact Hti ].
    destruct Hti as [Hti | Hti]; [ left; exact Hti | right ].
    rewrite lookup_insert_ne by (specialize (Hfresh _ _ Hti); lia). exact Hti.
  - unfold scale_cb. cbn. destruct (seek_result b); cbn; exact Hti.
  - unfold state_changed_cb. cbn.
    destruct (decide (esrc = the_playbin)) as [-> | Hne]; cbn; [ | exact Hti ].
    destruct n; cbn; try exact Hti.
    + destruct (Z.ltb_spec 0 ti) as [Hpos | Hneg]; cbn; [ left; reflexivity | exact Hti ].
    + right. rewrite to_gint_small by (unfold G_MAXINT in *; lia). apply lookup_insert_eq.
  - destruct (src !! tid) as [[|]|] eqn:Hid; cbn; [ | | exact Hti ].
    + unfold timer_src_func. cbn.
      destruct (negb (query_position_result b =? du)); cbn; [ exact Hti | left; reflexivity ].
    + unfold timeline_make_thumbnails. cbn.
      destruct (c <? THUMBNAILS_NUMBER); cbn.
      * unfold extract_thumbnails. cbn.
        destruct (set_state_return b); cbn; try exact Hti;
          destruct (pulled_sample b) as [[[[[?|] [?|]]|]]|]; cbn; exact Hti.
      * destruct Hti as [Hti | Hti]; [ left; exact Hti | right ].
        rewrite lookup_delete_ne by (intros ->; rewrite Hid in Hti; discriminate Hti).
        exact Hti.
Qed.

Lemma accounted_dispatch (w : World) (eb : Event * Backend) :
  poller_inv w -> timer_id_valid w -> accounted w -> accounted (dispatch w eb).
Proof.
  destruct eb as [ev b].
  unfold poller_inv, handles_ok, timer_id_valid, poller_active, accounted, steppers_attached.
  intros ((Hpb & Htl) & Hnx & Hfresh & Hpoll) Hti Hacc.
  break_world w. subst pb tl.
  assert (Hnone : src !! nx = None).
  { destruct (src !! nx) eqn:Hx; [ | reflexivity ]. specialize (Hfresh _ _ Hx). lia. }
  destruct ev as [ | | | res | target | msg | | esrc o n p | tid ]; cbn.
  - count_trace.
  - count_trace.
  - count_trace.
  - destruct res; cbn; [ | exact Hacc ].
    rewrite steppers_insert_stepper by exact Hnone. count_trace.
  - unfold scale_cb. cbn. destruct (seek_result b); cbn; count_trace.
  - count_trace.
  - count_trace.
  - unfold state_changed_cb. cbn.
    destruct (decide (esrc = the_playbin)) as [-> | Hne]; cbn; [ | exact Hacc ].
    destruct n; cbn; try (count_trace; fail).
    + destruct (Z.ltb_spec 0 ti) as [Hpos | Hneg]; cbn; [ | count_trace ].
      destruct Hti as [Hti | Hti]; [ lia | ].
      rewrite steppers_delete_poller by exact Hti. count_trace.
    + rewrite steppers_insert_poller by exact Hnone. count_trace.
  - destruct (src !! tid) as [[|]|] eqn:Hid; cbn; [ | | exact Hacc ].
    + unfold timer_src_func. cbn.
      destruct (negb (query_position_result b =? du)); cbn; [ count_trace | ].
      rewrite steppers_delete_poller by exact Hid. count_trace.
    + unfold timeline_make_thumbnails. cbn.
      destruct (c <? THUMBNAILS_NUMBER); cbn.
      * unfold extract_thumbnails. cbn.
        destruct (set_state_return b); cbn; try (count_trace; fail);
          destruct (pulled_sample b) as [[[[[?|] [?|]]|]]|]; cbn; count_trace.
      * pose proof (steppers_delete_stepper src tid Hid) as Hdel. count_trace.
Qed.

Lemma tidy_main_init : tidy main_init.
Proof.
  split; [ apply poller_inv_main_init | ]. split; [ left; reflexivity | ].
  unfold accounted, steppers_attached, steppers. cbn.
  rewrite map_filter_empty, map_size_empty. reflexivity.
Qed.

Lemma tidy_run (evs : list (Event * Backend)) (w : World) :
  tidy w -> lawful_run w evs = true -> tidy (run w evs).
Proof.
  revert w. induction evs as [| eb evs IH]; intros w Hw Hlaw; cbn in *; [ exact Hw | ].
  apply andb_true_iff in Hlaw. destruct Hlaw as [Hhd Htl].
  destruct Hw as (Hinv & Hti & Hacc).
  apply IH; [ | exact Htl ].
  split; [ apply poller_inv_dispatch; assumption | ].
  split; [ apply timer_id_valid_dispatch; assumption | ].
  apply accounted_dispatch; assumption.
Qed.



(** X11.  Every stepping timer attached by an open is either still attached
    or has ended by setting the timeline pipeline to NULL and unreffing it:
    the pipeline, created once in [main], is unreffed once per open. *)
Theorem steppers_accounted (evs : list (Event * Backend)) :
  lawful_run main_init evs = true ->
  let w := run main_init evs in
  count_eff is_stepper_attach (trace w) =
  (count_eff is_timeline_unref (trace w) + steppers_attached w)%nat.
Proof.
  intros Hlaw w.
  destruct (tidy_run evs main_init tidy_main_init Hlaw) as (_ & _ & Hacc).
  exact Hacc.
Qed.

Lemma steppers_accounted_witness :
  let w := run main_init two_opens_to_the_end in
  lawful_run main_init two_opens_to_the_end = true /\
  count w = THUMBNAILS_NUMBER /\
  steppers_attached w = 0%nat /\
  count_eff is_timeline_unref (trace w) = 2%nat.
Proof.
  intros w.
  assert (Hlaw : lawful_run main_init two_opens_to_the_end = true)
    by (vm_compute; reflexivity).
  pose proof (steppers_accounted two_opens_to_the_end Hlaw) as Hacc.
  change (count_eff is_stepper_attach (trace w) =
          (count_eff is_timeline_unref (trace w) + steppers_attached w)%nat) in Hacc.
  assert (Hatt : count_eff is_stepper_attach (trace w) = 2%nat) by (vm_compute; reflexivity).
  assert (Hleft : steppers_attached w = 0%nat) by (vm_compute; reflexivity).
  split; [ exact Hlaw | ]. split; [ vm_compute; reflexivity | ].
  split; [ exact Hleft | ]. lia.
Defined.

(** X12.  [timer_id] is a [gint] and the test before [g_source_remove] is
    [timer_id > 0]: a poller that GLib attaches under an id above [G_MAXINT]
    is recorded as a negative number and survives the next PAUSED
    announcement. *)
Theorem poller_beyond_gint_survives_pause (w : World) (o p o' p' : GstState)
  (b b' : Backend) :
  playbin (data w) = the_playbin -> G_MAXINT < next_source_id w < 2 ^ 32 ->
  let w1 := dispatch w (EvStateChanged the_playbin o GST_STATE_PLAYING p, b) in
  let w2 := dispatch w1 (EvStateChanged the_playbin o' GST_STATE_PAUSED p', b') in
  poller_active w1 (next_source_id w) /\
  timer_id (data w1) = next_source_id w - 2 ^ 32 /\
  poller_active w2 (next_source_id w) /\
  count_eff (fun e => match e with g_source_remove _ => true | _ => false end) (trace w2) =
  count_eff (fun e => match e with g_source_remove _ => true | _ => false end) (trace w).
Proof.
  intros Hpb Hnx w1 w2. subst w1 w2. unfold poller_active.
  break_world w. subst pb. unfold state_changed_cb. cbn.
  destruct (decide (the_playbin = the_playbin)) as [_ | Hne]; [ | congruence ]. cbn.
  assert (Hg : to_gint nx = nx - 2 ^ 32).
  { unfold to_gint, G_MAXINT in *.
    replace (nx + 2 ^ 31) with (nx - 2 ^ 31 + 1 * 2 ^ 32) by lia.
    rewrite Z.mod_add by lia. rewrite Z.mod_small by lia. lia. }
  rewrite Hg.
  destruct (decide (the_playbin = the_playbin)) as [_ | Hne]; [ | congruence ]. cbn.
  destruct (Z.ltb_spec 0 (nx - 2 ^ 32)) as [Hpos | _]; [ lia | ]. cbn.
  split; [ apply lookup_insert_eq | ]. split; [ reflexivity | ].
  split; [ apply lookup_insert_eq | count_trace ].
Qed.

Lemma poller_beyond_gint_survives_pause_witness :
  let w1 := dispatch ids_exhausted (ev_state GST_STATE_PAUSED GST_STATE_PLAYING, b_playing 0) in
  let w2 := dispatch w1 (ev_state GST_STATE_PLAYING GST_STATE_PAUSED, b_playing 0) in
  G_MAXINT < next_source_id ids_exhausted < 2 ^ 32 /\
  timer_id (data w1) = - 2 ^ 31 /\
  poller_active w2 (G_MAXINT + 1).
Proof.
  intros w1 w2.
  assert (Hnx : G_MAXINT < next_source_id ids_exhausted < 2 ^ 32)
    by (vm_compute; split; reflexivity).
  destruct (poller_beyond_gint_survives_pause ids_exhausted GST_STATE_PAUSED
              GST_STATE_VOID_PENDING GST_STATE_PLAYING GST_STATE_VOID_PENDING
              (b_playing 0) (b_playing 0) eq_refl Hnx) as (_ & Hti & Hact & _).
  split; [ exact Hnx | ]. split; [ exact Hti | exact Hact ].
Defined.

(** ** The earlier variant *)

Lemma basic_update_controls_one (d : Basic.CustomData) (type : Basic.label_type)
  (controls : list string) :
  Basic.update_controls d type controls = [] \/
  Basic.update_controls d type controls =
    [gtk_label_set_text (Basic.label_type_to_string type)
       (Basic.make_label_txt type (time_to_string (Basic.duration d)))].
Proof.
  induction controls as [| control rest IH]; cbn; [ left; reflexivity | ].
  destruct (String.eqb_spec control (Basic.label_type_to_string type)) as [-> | _];
    [ right; reflexivity | exact IH ].
Qed.

(** X13.  In the earlier variant [update_label] writes at most one label per
    call, whatever the widget tree, and the text always carries
    [data->duration], for the position label too; in the tree its own
    [create_ui] builds there is no position label and nothing is written for
    it. *)
Theorem basic_update_label_once (d : Basic.CustomData) (type : Basic.label_type)
  (boxes : list GtkBox) :
  (Basic.update_boxes d type boxes = [] \/
   Basic.update_boxes d type boxes =
     [gtk_label_set_text (Basic.label_type_to_string type)
        (Basic.make_label_txt type (time_to_string (Basic.duration d)))]) /\
  Basic.update_label d Basic.LABEL_TYPE_POSITION = [] /\
  Basic.update_label d Basic.LABEL_TYPE_DURATION =
    [gtk_label_set_text "duration" ("Duration: " +:+ time_to_string (Basic.duration d))].
Proof.
  split; [ | split; reflexivity ].
  induction boxes as [| box rest IH]; cbn [Basic.update_boxes]; [ left; reflexivity | ].
  destruct (negb (String.eqb (box_name box) "controls")); [ exact IH | ].
  apply basic_update_controls_one.
Qed.

(** X14.  On every state-changed message the later [state_changed_cb] does
    what the earlier one does (same recorded state, same duration, same log
    line, query and label) and, besides, only attaches or removes the
    position poller. *)
Theorem state_changed_cb_extends_basic (src : GstElement) (o n p : GstState)
  (b : Backend) (w : World) :
  let w' := state_changed_cb src o n p b w in
  let r := Basic.state_changed_cb src o n p b (basic_view (data w)) in
  basic_view (data w') = fst r /\
  position (data w') = position (data w) /\
  count w' = count w /\
  exists delta,
    trace w' = trace w ++ delta /\
    List.filter (fun e => negb (is_timer_call e)) delta = snd r.
Proof.
  intros w' r. subst w' r. unfold state_changed_cb, Basic.state_changed_cb.
  break_world w.
  destruct (decide (src = pb)) as [-> | Hne]; cbn.
  - destruct n; cbn;
      try (repeat (split; [ reflexivity | ]); eexists; split; reflexivity).
    + destruct (0 <? ti); cbn; repeat (split; [ reflexivity | ]);
        eexists; (split; [ try rewrite <- app_assoc; reflexivity | reflexivity ]).
    + repeat (split; [ reflexivity | ]). eexists.
      split; [ rewrite <- !app_assoc; reflexivity | reflexivity ].
  - repeat (split; [ reflexivity | ]). exists []. split; [ | reflexivity ].
    rewrite app_nil_r. reflexivity.
Qed.

(** ** Snapshots over a whole run *)

Lemma saves_bounded_dispatch (w : World) (eb : Event * Backend) :
  saves_bounded w -> saves_bounded (dispatch w eb).
Proof.
  intros [Hcnt Hle]. split; [ apply counted_dispatch, Hcnt | ].
  destruct Hcnt as ((Hpb & Htl) & _). destruct eb as [ev b].
  break_world w. subst pb tl.
  destruct ev as [ | | | res | target | msg | | esrc o n p | tid ]; cbn.
  - count_trace.
  - count_trace.
  - count_trace.
  - destruct res; cbn; count_trace.
  - unfold scale_cb. cbn. destruct (seek_result b); cbn; count_trace.
  - count_trace.
  - count_trace.
  - unfold state_changed_cb. cbn.
    destruct (decide (esrc = the_playbin)); cbn; [ | count_trace ].
    destruct n; cbn; try (destruct (0 <? ti); cbn); count_trace.
  - destruct (src !! tid) as [[|]|]; cbn; [ | | count_trace ].
    + unfold timer_src_func. cbn.
      destruct (negb (query_position_result b =? du)); cbn; count_trace.
    + unfold timeline_make_thumbnails. cbn.
      destruct (c <? THUMBNAILS_NUMBER); cbn; [ | count_trace ].
      unfold extract_thumbnails. cbn.
      destruct (set_state_return b); cbn; try (count_trace; fail);
        destruct (pulled_sample b) as [[[[[?|] [?|]]|]]|]; cbn; count_trace.
Qed.

(** X15.  snapshot.png is written at most once per extraction step, so at
    most ten times in the life of the process, while the timeline is given
    one image per step: the images shown can outnumber the snapshots taken
    but never the other way round. *)
Theorem snapshots_bounded (evs : list (Event * Backend)) :
  let w := run main_init evs in
  (count_eff is_snapshot_save (trace w) <= count_eff is_thumbnail_ready (trace w))%nat /\
  (count_eff is_snapshot_save (trace w) <= 10)%nat.
Proof.
  intros w.
  assert (Hb : saves_bounded w).
  { apply (run_invariant saves_bounded saves_bounded_dispatch).
    split; [ apply counted_main_init | cbn; lia ]. }
  destruct Hb as ((_ & Hc & Hsteps & Hready) & Hle).
  unfold THUMBNAILS_NUMBER in Hc. split; lia.
Qed.
